(** * Audio extraction pipeline ([app.py]): model and verified properties

    The program saves an uploaded video into a temporary directory, runs
    the external [ffmpeg] executable to extract a WAV track, optionally
    runs it again to produce an MP3, reads the resulting file and returns
    its bytes.  Everything the program does is an effect on its
    environment, so the embedding is a state-and-exception monad over a
    [World] made of

    - a POSIX-like file system (directories, regular files, path walk),
    - the list of [subprocess.run] invocations made so far,
    - the messages shown through [st.error],
    - the memo table of the [@st.cache_data] decorator,
    - the names the temporary-name generator will produce.

    The executable found on the PATH and the UTF-8 decoder are parameters
    of the development: the program never looks inside them.

    Bounds of the model: no symbolic links, no permissions, no disk
    quota; a Python [str] is represented by its byte encoding; the
    limits on names and paths are those of Linux; a missing path
    component is reported as [ENOENT] also when a trailing slash follows
    it; the memo table is keyed on the argument values, not on
    their hash; the default value of [output_format] is written out at
    every call. *)

From Stdlib Require Import ZArith Ascii String.
From stdpp Require Import gmap strings list fin_maps.

Local Open Scope string_scope.

(** ** Data *)

Definition bytes := list Byte.byte.

#[global] Instance byte_eq_dec : EqDecision Byte.byte := Byte.byte_eq_dec.
#[global] Instance byte_countable : Countable Byte.byte :=
  inj_countable Byte.to_N Byte.of_N Byte.of_to_N.

(** A resolved path: the components from the root directory down. *)
Definition path := list string.

(** ** Python exceptions *)

Inductive errno := ENOENT | ENOTDIR | EISDIR | EEXIST | ENAMETOOLONG.

(** [OSError e p] stands for the subclass Python picks from the errno:
    [FileNotFoundError] for [ENOENT], [NotADirectoryError] for [ENOTDIR],
    [IsADirectoryError] for [EISDIR], [FileExistsError] for [EEXIST],
    plain [OSError] for [ENAMETOOLONG].
    Every constructor below is a subclass of [Exception]. *)
Inductive exn :=
| OSError (e : errno) (filename : string)
| CalledProcessError (returncode : Z) (cmd : list string) (stderr : bytes)
| UnicodeDecodeError
| ValueError (msg : string)
| IndexError.

Definition FileNotFoundError := OSError ENOENT.
Definition IsADirectoryError := OSError EISDIR.
Definition NotADirectoryError := OSError ENOTDIR.
Definition FileExistsError := OSError EEXIST.

#[global] Instance errno_eq_dec : EqDecision errno.
Proof. solve_decision. Defined.
#[global] Instance exn_eq_dec : EqDecision exn.
Proof. solve_decision. Defined.

(** ** File system *)

Record FS := mkFS {
  dirs : gset path;          (* directories, the root [[]] apart *)
  files : gmap path bytes;   (* regular files and their contents *)
  cwd : path                 (* current working directory *)
}.

Definition is_dir (fs : FS) (p : path) : bool :=
  bool_decide (p = [] ∨ p ∈ dirs fs).

Definition is_file (fs : FS) (p : path) : bool :=
  bool_decide (is_Some (files fs !! p)).

(** [posixpath.join] for two arguments. *)
Definition starts_with_sep (s : string) : bool :=
  match s with
  | String c _ => bool_decide (c = "/"%char)
  | EmptyString => false
  end.

Fixpoint ends_with_sep (s : string) : bool :=
  match s with
  | EmptyString => false
  | String c EmptyString => bool_decide (c = "/"%char)
  | String _ s' => ends_with_sep s'
  end.

Definition os_path_join (a b : string) : string :=
  if starts_with_sep b then b
  else if bool_decide (a = "") || ends_with_sep a then a +:+ b
  else a +:+ "/" +:+ b.

(** Splitting a path string at every ["/"]. *)
Fixpoint split_sep (s : string) : list string :=
  match s with
  | EmptyString => [""]
  | String c s' =>
      if bool_decide (c = "/"%char) then "" :: split_sep s'
      else match split_sep s' with
           | [] => [String c ""]
           | x :: xs => String c x :: xs
           end
  end.

Fixpoint has_nul (s : string) : bool :=
  match s with
  | EmptyString => false
  | String c s' => bool_decide (c = "000"%char) || has_nul s'
  end.

(** The longest name of a directory entry and the shortest path that is
    too long, in bytes. *)
Definition NAME_MAX : nat := 255.
Definition PATH_MAX : nat := 4096.

(** The kernel's path walk: every component but the last must name an
    existing directory; [".."] goes to the parent; empty components and
    ["."] stay in place; a component longer than [NAME_MAX] is refused. *)
Fixpoint walk (fs : FS) (cur : path) (comps : list string) : errno + path :=
  match comps with
  | [] => inr cur
  | c :: rest =>
      if bool_decide (c = "" ∨ c = ".") then walk fs cur rest
      else if bool_decide (c = "..") then walk fs (removelast cur) rest
      else if bool_decide (NAME_MAX < String.length c)%nat then inl ENAMETOOLONG
      else
        let nxt := (cur ++ [c])%list in
        match rest with
        | [] => inr nxt
        | _ :: _ =>
            if is_dir fs nxt then walk fs nxt rest
            else if is_file fs nxt then inl ENOTDIR
            else inl ENOENT
        end
  end.

Definition resolve (fs : FS) (p : string) : errno + path :=
  if bool_decide (p = "") then inl ENOENT
  else if bool_decide (PATH_MAX ≤ String.length p)%nat then inl ENAMETOOLONG
  else walk fs (if starts_with_sep p then [] else cwd fs) (split_sep p).

(** [os.mkdir]. *)
Definition mkdir (fs : FS) (p : string) : errno + (path * FS) :=
  match resolve fs p with
  | inl e => inl e
  | inr r =>
      if is_dir fs r || is_file fs r then inl EEXIST
      else if is_dir fs (removelast r)
      then inr (r, mkFS ({[ r ]} ∪ dirs fs) (files fs) (cwd fs))
      else inl ENOENT
  end.

(** [open(p, "wb")] followed by [f.write(data)] and the close. *)
Definition fs_write (fs : FS) (p : string) (data : bytes) : exn + FS :=
  if has_nul p then inl (ValueError "embedded null byte")
  else match resolve fs p with
       | inl e => inl (OSError e p)
       | inr r =>
           if is_dir fs r then inl (IsADirectoryError p)
           else if is_dir fs (removelast r)
           then inr (mkFS (dirs fs) (<[ r := data ]> (files fs)) (cwd fs))
           else inl (FileNotFoundError p)
       end.

(** [open(p, "rb")] followed by [f.read()]. *)
Definition fs_read (fs : FS) (p : string) : exn + bytes :=
  if has_nul p then inl (ValueError "embedded null byte")
  else match resolve fs p with
       | inl e => inl (OSError e p)
       | inr r =>
           if is_dir fs r then inl (IsADirectoryError p)
           else match files fs !! r with
                | Some data => inr data
                | None => inl (FileNotFoundError p)
                end
       end.

(** [shutil.rmtree] of the directory resolved as [r]: the directory and
    everything below it go. *)
Definition rmtree (fs : FS) (r : path) : FS :=
  mkFS (filter (λ p, ¬ r `prefix_of` p) (dirs fs))
       (filter (λ kv, ¬ r `prefix_of` kv.1) (files fs))
       (cwd fs).

(** ** The world and the effect monad *)

(** A cache key of [@st.cache_data]: the argument values of the call
    (the decorator hashes them; collisions are not modelled). *)
Definition Key : Type := bytes * string * string.

Record World := mkWorld {
  fs : FS;
  tempdir : string;                 (* [tempfile.gettempdir()] *)
  tmp_names : list string;          (* names the generator will yield *)
  run_calls : list (list string);   (* argument lists given to [subprocess.run] *)
  ui : list string;                 (* messages shown by [st.error] *)
  memo : gmap Key (option bytes * list string)
}.

Definition set_fs (f : FS) (w : World) : World :=
  mkWorld f (tempdir w) (tmp_names w) (run_calls w) (ui w) (memo w).
Definition set_tmp_names (l : list string) (w : World) : World :=
  mkWorld (fs w) (tempdir w) l (run_calls w) (ui w) (memo w).
Definition set_run_calls (l : list (list string)) (w : World) : World :=
  mkWorld (fs w) (tempdir w) (tmp_names w) l (ui w) (memo w).
Definition set_ui (l : list string) (w : World) : World :=
  mkWorld (fs w) (tempdir w) (tmp_names w) (run_calls w) l (memo w).
Definition set_memo (m : gmap Key (option bytes * list string)) (w : World) : World :=
  mkWorld (fs w) (tempdir w) (tmp_names w) (run_calls w) (ui w) m.

Inductive outcome (A : Type) :=
| Ret (a : A)
| Raise (e : exn).
Arguments Ret {A} a.
Arguments Raise {A} e.

Definition M (A : Type) : Type := World → outcome A * World.

Definition ret {A} (a : A) : M A := λ w, (Ret a, w).
Definition raise {A} (e : exn) : M A := λ w, (Raise e, w).

Definition bind {A B} (c : M A) (k : A → M B) : M B :=
  λ w, match c w with
       | (Ret a, w') => k a w'
       | (Raise e, w') => (Raise e, w')
       end.

(** [try: c  except ...: h e]: the handler receives the exception and
    decides by itself which classes it handles (re-raising the others). *)
Definition try_except {A} (c : M A) (h : exn → M A) : M A :=
  λ w, match c w with
       | (Ret a, w') => (Ret a, w')
       | (Raise e, w') => h e w'
       end.

Declare Scope py_scope.
Delimit Scope py_scope with py.
Notation "x <- c ;; k" := (bind c (λ x, k))
  (at level 100, c at next level, right associativity) : py_scope.
Notation "c ;;; k" := (bind c (λ _, k))
  (at level 100, right associativity) : py_scope.
Local Open Scope py_scope.

(** [st.error(msg)]. *)
Definition st_error (msg : string) : M unit :=
  λ w, (Ret tt, set_ui (ui w ++ [msg])%list w).

Definition lift_fs_write (p : string) (data : bytes) : M unit :=
  λ w, match fs_write (fs w) p data with
       | inl e => (Raise e, w)
       | inr f => (Ret tt, set_fs f w)
       end.

Definition lift_fs_read (p : string) : M bytes :=
  λ w, match fs_read (fs w) p with
       | inl e => (Raise e, w)
       | inr b => (Ret b, w)
       end.

(** ** External processes *)

Record Completed := mkCompleted {
  returncode : Z;
  stdout : bytes;
  stderr : bytes;
  fs_after : FS
}.

(** An executable: from its arguments and the file system to its exit
    status, captured output and the file system it leaves. *)
Definition Program : Type := list string → FS → Completed.

(** [tempfile.mkdtemp], as [TemporaryDirectory.__init__] calls it: try the
    generator's names one after the other until [mkdir] succeeds. *)
Fixpoint mkdtemp_from (base : string) (names : list string) (f : FS)
  : (exn + string * path * FS) * list string :=
  match names with
  | [] => (inl (FileExistsError "No usable temporary directory name found"), [])
  | n :: ns =>
      let p := os_path_join base ("tmp" +:+ n) in
      match mkdir f p with
      | inr (r, f') => (inr (p, r, f'), ns)
      | inl EEXIST => mkdtemp_from base ns f
      | inl e => (inl (OSError e p), ns)
      end
  end.

(** [with tempfile.TemporaryDirectory() as temp_dir: body temp_dir]: the
    directory is removed with all its contents when the block is left,
    by a return as well as by an exception. *)
Definition with_TemporaryDirectory {A} (body : string → M A) : M A :=
  λ w, match mkdtemp_from (tempdir w) (tmp_names w) (fs w) with
       | (inl e, ns) => (Raise e, set_tmp_names ns w)
       | (inr (name, r, f), ns) =>
           let '(o, w') := body name (set_fs f (set_tmp_names ns w)) in
           (o, set_fs (rmtree (fs w') r) w')
       end.

(** [@st.cache_data]: a call whose arguments are in the memo table
    returns the stored value and replays the stored messages, without
    running the function; otherwise the function runs and, when it
    returns, its value and the messages it showed are stored.  A call
    that raises stores nothing. *)
Definition cache_data (f : bytes → string → string → M (option bytes))
  (a : bytes) (b c : string) : M (option bytes) :=
  λ w, match memo w !! (a, b, c) with
       | Some (v, msgs) => (Ret v, set_ui (ui w ++ msgs)%list w)
       | None =>
           match f a b c w with
           | (Ret v, w') =>
               (Ret v, set_memo (<[ (a, b, c) := (v, drop (length (ui w)) (ui w')) ]> (memo w')) w')
           | (Raise e, w') => (Raise e, w')
           end
       end.

(** ** The program *)

Section App.

(** What the PATH lookup of [subprocess.run] finds under a name. *)
Variable which : string → option Program.
(** [bytes.decode()], which fails on input that is not UTF-8. *)
Variable decode : bytes → option string.

(** [subprocess.run(args, check=True, capture_output=True)]. *)
Definition subprocess_run (args : list string) : M Completed :=
  λ w,
    let w1 := set_run_calls (run_calls w ++ [args])%list w in
    match args with
    | [] => (Raise IndexError, w1)
    | exe :: argv =>
        match which exe with
        | None => (Raise (FileNotFoundError exe), w1)
        | Some prog =>
            let c := prog argv (fs w1) in
            let w2 := set_fs (fs_after c) w1 in
            if bool_decide (returncode c = 0%Z) then (Ret c, w2)
            else (Raise (CalledProcessError (returncode c) args (stderr c)), w2)
        end
    end.

Definition extract_cmd (video_path output_wav_path : string) : list string :=
  ["ffmpeg"; "-y"; "-i"; video_path;
   "-vn"; "-acodec"; "pcm_s16le";
   output_wav_path].

Definition extract_audio_ffmpeg (video_path output_wav_path : string) : M unit :=
  try_except
    (subprocess_run (extract_cmd video_path output_wav_path) ;;; ret tt)
    (λ e, match e with
          | CalledProcessError _ _ err =>
              match decode err with
              | Some text =>
                  st_error ("FFmpeg extraction failed! Output: " +:+ text) ;;;
                  raise e
              | None => raise UnicodeDecodeError
              end
          | OSError ENOENT _ =>
              st_error "FFmpeg not found. Please ensure it is installed and in your system PATH." ;;;
              raise e
          | _ => raise e
          end).

Definition convert_cmd (input_wav_path output_mp3_path : string) : list string :=
  ["ffmpeg"; "-y"; "-i"; input_wav_path;
   "-acodec"; "libmp3lame";
   "-q:a"; "2";
   output_mp3_path].

Definition convert_to_mp3_ffmpeg (input_wav_path output_mp3_path : string) : M unit :=
  try_except
    (subprocess_run (convert_cmd input_wav_path output_mp3_path) ;;; ret tt)
    (λ e, match e with
          | CalledProcessError _ _ err =>
              match decode err with
              | Some text =>
                  st_error ("FFmpeg MP3 conversion failed! Output: " +:+ text) ;;;
                  raise e
              | None => raise UnicodeDecodeError
              end
          | _ => raise e
          end).

Definition temp_video_path (temp_dir original_filename : string) : string :=
  os_path_join temp_dir original_filename.
Definition temp_audio_wav (temp_dir : string) : string :=
  os_path_join temp_dir "temp_audio.wav".
Definition final_audio_path (temp_dir output_format : string) : string :=
  os_path_join temp_dir ("extracted_audio." +:+ output_format).

(** The [try] block of the entry point: steps 2 to 4. *)
Definition try_block (temp_dir original_filename output_format : string) : M (option bytes) :=
  extract_audio_ffmpeg (temp_video_path temp_dir original_filename) (temp_audio_wav temp_dir) ;;;
  final <- (if bool_decide (output_format = "mp3")
            then convert_to_mp3_ffmpeg (temp_audio_wav temp_dir)
                   (final_audio_path temp_dir output_format) ;;;
                 ret (final_audio_path temp_dir output_format)
            else ret (temp_audio_wav temp_dir)) ;;
  audio_bytes <- lift_fs_read final ;;
  ret (Some audio_bytes).

(** The body of the [with] block: step 1, then the [try] block with its
    [except Exception: return None]. *)
Definition with_block (video_bytes : bytes) (original_filename output_format : string)
  (temp_dir : string) : M (option bytes) :=
  lift_fs_write (temp_video_path temp_dir original_filename) video_bytes ;;;
  try_except (try_block temp_dir original_filename output_format)
             (λ _, ret None).

(** The function as written, before the decorator is applied. *)
Definition extract_audio_for_download_wrapped
  (video_bytes : bytes) (original_filename output_format : string) : M (option bytes) :=
  with_TemporaryDirectory (with_block video_bytes original_filename output_format).

(** The name the module exports: the decorated function. *)
Definition extract_audio_for_download :=
  cache_data extract_audio_for_download_wrapped.

(** ** Observations on a run, used to state the properties *)

Definition called (args : list string) (w : World) : World :=
  set_run_calls (run_calls w ++ [args])%list w.

(** What the [CalledProcessError] handler of a utility does with the
    captured error stream: show it under [label] and re-raise, unless the
    stream does not decode. *)
Definition reported (label : string) (e : exn) (err : bytes) (w : World)
  : outcome unit * World :=
  match decode err with
  | Some text => (Raise e, set_ui (ui w ++ [label +:+ text])%list w)
  | None => (Raise UnicodeDecodeError, w)
  end.

(** The exception that the [except Exception] clause of the entry point
    catches in the run started from [w], if the run gets that far and
    the [try] block raises. *)
Definition caught_exception
  (video_bytes : bytes) (original_filename output_format : string) (w : World)
  : option exn :=
  match mkdtemp_from (tempdir w) (tmp_names w) (fs w) with
  | (inr (name, _, f), ns) =>
      match fs_write f (temp_video_path name original_filename) video_bytes with
      | inr f1 =>
          match (try_block name original_filename output_format
                   (set_fs f1 (set_tmp_names ns w))).1 with
          | Raise e => Some e
          | Ret _ => None
          end
      | inl _ => None
      end
  | (inl _, _) => None
  end.

End App.

(** ** The toolkit's command line *)

(** The value that follows the option [flag] in an argument list. *)
Fixpoint option_value (flag : string) (args : list string) : option string :=
  match args with
  | a :: rest =>
      if bool_decide (a = flag)
      then match rest with
           | v :: _ => Some v
           | [] => None
           end
      else option_value flag rest
  | [] => None
  end.

(** The values of [-q:a] that the MP3 encoder accepts for variable
    bitrate, from the highest fidelity (largest output) down. *)
Definition lame_quality_scale : list string :=
  ["0"; "1"; "2"; "3"; "4"; "5"; "6"; "7"; "8"; "9"].

(** The [k]-th highest step of the scale, [k] counted from 1. *)
Definition kth_highest_quality (k : nat) : option string :=
  match k with
  | O => None
  | S i => lame_quality_scale !! i
  end.

(** Whether the character [c] occurs in [s]. *)
Fixpoint contains_char (c : ascii) (s : string) : bool :=
  match s with
  | EmptyString => false
  | String c' s' => bool_decide (c' = c) || contains_char c s'
  end.

(** What a step adds to the messages: nothing when it returns, one
    message at most when it raises. *)
Definition adds_at_most_one {A} (w : World) (r : outcome A * World) : Prop :=
  ∃ msgs, ui r.2 = (ui w ++ msgs)%list
          ∧ (length msgs ≤ 1)%nat
          ∧ (∀ a, r.1 = Ret a → msgs = []).

(** A file name as a browser sends it: one path component, neither
    empty nor [.] nor [..]. *)
Definition plain_name (fn : string) : bool :=
  negb (contains_char "/" fn)
  && bool_decide (fn ≠ "" ∧ fn ≠ "." ∧ fn ≠ "..").

(** The file system [f'] differs from [f] only at [r] and below. *)
Definition keeps_outside (r : path) (f f' : FS) : Prop :=
  cwd f' = cwd f
  ∧ ∀ p, ¬ r `prefix_of` p →
         files f' !! p = files f !! p ∧ (p ∈ dirs f' ↔ p ∈ dirs f).

(** The directories and the current directory stay, and so does every
    file outside [r]. *)
Definition same_outside (r : path) (f f' : FS) : Prop :=
  dirs f' = dirs f ∧ keeps_outside r f f'.

(** An executable that changes nothing but the file at its output path,
    which it takes from its last argument: no other file, no directory,
    not the current directory. *)
Definition writes_only_output (prog : Program) : Prop :=
  ∀ argv f,
    cwd (fs_after (prog argv f)) = cwd f
    ∧ dirs (fs_after (prog argv f)) = dirs f
    ∧ ∀ p, resolve f (List.last argv "") ≠ inr p →
           files (fs_after (prog argv f)) !! p = files f !! p.

(** Every executable on the PATH is of that kind. *)
Definition toolkit_writes_only_output (which : string → option Program) : Prop :=
  ∀ exe prog, which exe = Some prog → writes_only_output prog.

(** ** The page ([main]) *)

(** [s.rsplit('.', 1)] when [s] contains a dot: what is before and what
    is after the last one. *)
Fixpoint rsplit_last_dot (s : string) : option (string * string) :=
  match s with
  | EmptyString => None
  | String c s' =>
      match rsplit_last_dot s' with
      | Some (before, after) => Some (String c before, after)
      | None => if bool_decide (c = "."%char) then Some ("", s') else None
      end
  end.

(** [s.rsplit('.', 1)]. *)
Definition rsplit_dot (s : string) : list string :=
  match rsplit_last_dot s with
  | Some (before, after) => [before; after]
  | None => [s]
  end.

(** [uploaded_file.name.rsplit('.', 1)[0]]. *)
Definition base_name (name : string) : string :=
  match rsplit_dot name with
  | x :: _ => x
  | [] => ""
  end.

(** [str.upper] on 7-bit letters (the page applies it to the value of
    the radio button only). *)
Definition upper_char (c : ascii) : ascii :=
  let n := nat_of_ascii c in
  if bool_decide (97 ≤ n ≤ 122)%nat then ascii_of_nat (n - 32) else c.

Fixpoint str_upper (s : string) : string :=
  match s with
  | EmptyString => EmptyString
  | String c s' => String (upper_char c) (str_upper s')
  end.

Definition ALLOWED_EXTENSIONS : gset string :=
  {[ "mp4"; "avi"; "mov"; "webm"; "mkv" ]}.

(** The options of the radio button, in the order of the source. *)
Definition format_options : list string := ["mp3"; "wav"].

(** What [st.radio] returns: one of its options. *)
Inductive Choice := ChooseMp3 | ChooseWav.

Definition choice_value (c : Choice) : string :=
  match c with
  | ChooseMp3 => "mp3"
  | ChooseWav => "wav"
  end.

(** [f"audio/{output_format}" if output_format == 'mp3' else "audio/wav"]. *)
Definition mime_type (output_format : string) : string :=
  if bool_decide (output_format = "mp3") then "audio/" +:+ output_format
  else "audio/wav".

(** [f"{base_name}_extracted.{output_format}"]. *)
Definition download_name (name output_format : string) : string :=
  base_name name +:+ "_extracted." +:+ output_format.

(** The file the browser sent. *)
Record UploadedFile := mkUploadedFile {
  up_name : string;
  up_data : bytes
}.

(** The state of the widgets when the script runs: what each widget
    returned.  An upload that [st.file_uploader] refuses for its
    extension makes the uploader itself raise, before any line below it
    runs; [main] starts from the values returned. *)
Record Inputs := mkInputs {
  uploaded_file : option UploadedFile;   (* [st.file_uploader] *)
  radio : Choice;                        (* [st.radio] *)
  button : bool                          (* [st.button] *)
}.

(** What the script puts on the page, [st.error] apart (error messages
    go to [ui]). *)
Inductive Element :=
| Title (text : string)
| Markdown (text : string)
| Info (text : string)
| FileUploader (label : string) (types : gset string)
| Subheader (text : string)
| Video (data : bytes)
| Radio (label : string) (options : list string)
| Button (label : string)
| Spinner (text : string)
| DownloadButton (label : string) (data : bytes) (file_name : string) (mime : string).

(** Whether an element of the page is a download button. *)
Definition is_download (el : Element) : bool :=
  match el with
  | DownloadButton _ _ _ _ => true
  | _ => false
  end.

Section Page.

Variable which : string → option Program.
Variable decode : bytes → option string.

Definition page_header : list Element :=
  [Title "✂️ Video Audio Extractor";
   Markdown "Upload any video file to download its separate audio track in MP3 or WAV format.";
   Info "FFmpeg is required for this app to work.";
   FileUploader "Choose a Video File" ALLOWED_EXTENSIONS].

Definition page_form (video_bytes : bytes) : list Element :=
  [Subheader "Video Preview";
   Video video_bytes;
   Radio "Select Output Audio Format:" format_options;
   Button "Extract and Prepare for Download"].

Definition main (inp : Inputs) : M (list Element) :=
  match uploaded_file inp with
  | None => ret page_header
  | Some up =>
      let video_bytes := up_data up in
      let output_format := choice_value (radio inp) in
      let shown := (page_header ++ page_form video_bytes)%list in
      if button inp then
        let spinner :=
          Spinner ("Processing... Extracting audio and converting to "
                   +:+ str_upper output_format +:+ "...") in
        audio_data <- extract_audio_for_download which decode
                        video_bytes (up_name up) output_format ;;
        match audio_data with
        | Some ((_ :: _) as audio) =>
            ret (shown ++
                 [spinner;
                  Subheader "✅ Download Ready";
                  DownloadButton ("Download " +:+ download_name (up_name up) output_format)
                    audio
                    (download_name (up_name up) output_format)
                    (mime_type output_format)])%list
        | _ =>
            st_error "Extraction failed. Check the error logs above." ;;;
            ret (shown ++ [spinner])%list
        end
      else ret shown
  end.

End Page.

(** ** A sample environment, to run the model on concrete inputs *)

Module Sample.

Definition b (s : string) : bytes := list_byte_of_string s.

(** An executable that behaves like the toolkit on tiny inputs: a
    "video" is any file starting with the byte [V]; its audio track is
    the rest of the file.  Extraction writes ["RIFF"] followed by the
    track, compression turns a ["RIFF"] file into an ["ID3"] one. *)
Definition finished (rc : Z) (err : string) (f : FS) : Completed :=
  mkCompleted rc [] (b err) f.

Definition ffmpeg : Program :=
  λ argv f,
    match argv with
    | ["-y"; "-i"; inp; "-vn"; "-acodec"; "pcm_s16le"; out] =>
        if bool_decide (inp = out) then finished 1 "Output same as Input #0 - exiting" f
        else match fs_read f inp with
             | inr (Byte.x56 :: track) =>
                 match fs_write f out (b "RIFF" ++ track)%list with
                 | inr f' => finished 0 "" f'
                 | inl _ => finished 1 "Could not open output" f
                 end
             | inr _ => finished 1 "Invalid data found when processing input" f
             | inl _ => finished 1 "No such file or directory" f
             end
    | ["-y"; "-i"; inp; "-acodec"; "libmp3lame"; "-q:a"; _; out] =>
        if bool_decide (inp = out) then finished 1 "Output same as Input #0 - exiting" f
        else match fs_read f inp with
             | inr (Byte.x52 :: Byte.x49 :: Byte.x46 :: Byte.x46 :: track) =>
                 match fs_write f out (b "ID3" ++ track)%list with
                 | inr f' => finished 0 "" f'
                 | inl _ => finished 1 "Could not open output" f
                 end
             | inr _ => finished 1 "Invalid data found when processing input" f
             | inl _ => finished 1 "No such file or directory" f
             end
    | _ => finished 1 "Unrecognized option" f
    end.

(** The toolkit is installed. *)
Definition installed : string → option Program :=
  λ exe, if bool_decide (exe = "ffmpeg") then Some ffmpeg else None.

(** The toolkit is missing from the PATH. *)
Definition missing : string → option Program := λ _, None.

(** A decoder that accepts 7-bit text only. *)
Definition decode (x : bytes) : option string :=
  if forallb (λ c, N.ltb (Byte.to_N c) 128) x
  then Some (string_of_list_byte x) else None.

Definition fs0 : FS := mkFS {[ ["tmp"]; ["srv"] ]} ∅ [].

Definition w0 : World :=
  mkWorld fs0 "/tmp" ["k3x9_q0a"; "p71mzz4c"; "0wd8s_e2"] [] [] ∅.

Definition video : bytes := b "Vhello".
Definition garbage : bytes := b "not a video".

(** The workspace [mkdtemp] creates in [w0], and the world inside the
    [with] block. *)
Definition ws_name : string := "/tmp/tmpk3x9_q0a".
Definition ws_path : path := ["tmp"; "tmpk3x9_q0a"].
Definition fs1 : FS := mkFS ({[ ws_path ]} ∪ dirs fs0) (files fs0) (cwd fs0).
Definition w_ws : World := set_fs fs1 (set_tmp_names ["p71mzz4c"; "0wd8s_e2"] w0).

(** The file system once [data] is written as [name] in the workspace. *)
Definition fs_with (name : string) (data : bytes) : FS :=
  mkFS (dirs fs1) (<[ (ws_path ++ [name])%list := data ]> (files fs1)) (cwd fs1).

(** A toolkit that reads the file named by its third argument and, when
    that file starts with the byte [V], writes ["RIFF"] and the rest of
    it at the path given as its last argument. *)
Definition transcoder : Program :=
  λ argv f,
    match fs_read f (nth 2 argv "") with
    | inr (c :: track) =>
        if bool_decide (c = Byte.x56) then
          match fs_write f (List.last argv "") (b "RIFF" ++ track)%list with
          | inr f' => mkCompleted 0 [] [] f'
          | inl _ => mkCompleted 1 [] (b "Could not open output") f
          end
        else mkCompleted 1 [] (b "Invalid data found when processing input") f
    | _ => mkCompleted 1 [] (b "Invalid data found when processing input") f
    end.

Definition transcoding : string → option Program := λ _, Some transcoder.

(** A toolkit that reports success and writes nothing. *)
Definition idle : string → option Program :=
  λ _, Some (λ _ f, mkCompleted 0 [] [] f).

(** The widgets after an upload and a click. *)
Definition clicked (name : string) (data : bytes) (c : Choice) : Inputs :=
  mkInputs (Some (mkUploadedFile name data)) c true.

End Sample.

(** * Properties *)

(** ** How each step unfolds *)

Section Steps.

Variable which : string → option Program.
Variable decode : bytes → option string.

Lemma subprocess_run_ffmpeg (argv : list string) (w : World) :
  subprocess_run which ("ffmpeg" :: argv) w =
  match which "ffmpeg" with
  | None => (Raise (FileNotFoundError "ffmpeg"), called ("ffmpeg" :: argv) w)
  | Some prog =>
      let c := prog argv (fs w) in
      let w2 := set_fs (fs_after c) (called ("ffmpeg" :: argv) w) in
      if bool_decide (returncode c = 0%Z) then (Ret c, w2)
      else (Raise (CalledProcessError (returncode c) ("ffmpeg" :: argv) (stderr c)), w2)
  end.
Proof. reflexivity. Qed.

Lemma extract_audio_ffmpeg_eq (v o : string) (w : World) :
  extract_audio_ffmpeg which decode v o w =
  let cmd := extract_cmd v o in
  match which "ffmpeg" with
  | None =>
      (Raise (FileNotFoundError "ffmpeg"),
       set_ui (ui w ++ ["FFmpeg not found. Please ensure it is installed and in your system PATH."])%list
              (called cmd w))
  | Some prog =>
      let c := prog (tail cmd) (fs w) in
      let w2 := set_fs (fs_after c) (called cmd w) in
      if bool_decide (returncode c = 0%Z) then (Ret tt, w2)
      else reported decode "FFmpeg extraction failed! Output: "
             (CalledProcessError (returncode c) cmd (stderr c)) (stderr c) w2
  end.
Proof.
  unfold extract_audio_ffmpeg, try_except, bind, extract_cmd.
  rewrite subprocess_run_ffmpeg. cbn [tail].
  destruct (which "ffmpeg") as [prog|]; [|reflexivity].
  cbv zeta. case_bool_decide; [reflexivity|].
  unfold reported. destruct (decode _); reflexivity.
Qed.

Lemma convert_to_mp3_ffmpeg_eq (i o : string) (w : World) :
  convert_to_mp3_ffmpeg which decode i o w =
  let cmd := convert_cmd i o in
  match which "ffmpeg" with
  | None => (Raise (FileNotFoundError "ffmpeg"), called cmd w)
  | Some prog =>
      let c := prog (tail cmd) (fs w) in
      let w2 := set_fs (fs_after c) (called cmd w) in
      if bool_decide (returncode c = 0%Z) then (Ret tt, w2)
      else reported decode "FFmpeg MP3 conversion failed! Output: "
             (CalledProcessError (returncode c) cmd (stderr c)) (stderr c) w2
  end.
Proof.
  unfold convert_to_mp3_ffmpeg, try_except, bind, convert_cmd.
  rewrite subprocess_run_ffmpeg. cbn [tail].
  destruct (which "ffmpeg") as [prog|]; [|reflexivity].
  cbv zeta. case_bool_decide; [reflexivity|].
  unfold reported. destruct (decode _); reflexivity.
Qed.

Lemma reported_run_calls label e err w :
  run_calls (reported decode label e err w).2 = run_calls w.
Proof. unfold reported. destruct (decode err); reflexivity. Qed.

(** Each utility makes exactly one call of the toolkit. *)
Lemma extract_audio_ffmpeg_calls v o w :
  run_calls (extract_audio_ffmpeg which decode v o w).2
  = (run_calls w ++ [extract_cmd v o])%list.
Proof.
  rewrite extract_audio_ffmpeg_eq. cbv zeta.
  destruct (which "ffmpeg"); [|reflexivity].
  case_bool_decide; [reflexivity|]. by rewrite reported_run_calls.
Qed.

Lemma convert_to_mp3_ffmpeg_calls i o w :
  run_calls (convert_to_mp3_ffmpeg which decode i o w).2
  = (run_calls w ++ [convert_cmd i o])%list.
Proof.
  rewrite convert_to_mp3_ffmpeg_eq. cbv zeta.
  destruct (which "ffmpeg"); [|reflexivity].
  case_bool_decide; [reflexivity|]. by rewrite reported_run_calls.
Qed.

(** The body of the [with] block, split at the write of the source. *)
Lemma with_block_eq v fn fmt td w :
  with_block which decode v fn fmt td w =
  match fs_write (fs w) (temp_video_path td fn) v with
  | inl e => (Raise e, w)
  | inr f1 =>
      match try_block which decode td fn fmt (set_fs f1 w) with
      | (Ret a, w2) => (Ret a, w2)
      | (Raise _, w2) => (Ret None, w2)
      end
  end.
Proof.
  unfold with_block, bind, lift_fs_write, try_except, ret.
  destruct (fs_write _ _ _); reflexivity.
Qed.

(** The whole function, split at the creation of the workspace. *)
Lemma wrapped_eq v fn fmt w :
  extract_audio_for_download_wrapped which decode v fn fmt w =
  match mkdtemp_from (tempdir w) (tmp_names w) (fs w) with
  | (inl e, ns) => (Raise e, set_tmp_names ns w)
  | (inr (name, r, f), ns) =>
      let '(o, w') := with_block which decode v fn fmt name (set_fs f (set_tmp_names ns w)) in
      (o, set_fs (rmtree (fs w') r) w')
  end.
Proof. reflexivity. Qed.

End Steps.

Section Pipeline.

Variable which : string → option Program.
Variable decode : bytes → option string.

(** The [try] block step by step. *)
Lemma try_block_eq td fn fmt w :
  try_block which decode td fn fmt w =
  match extract_audio_ffmpeg which decode (temp_video_path td fn) (temp_audio_wav td) w with
  | (Raise e, w1) => (Raise e, w1)
  | (Ret _, w1) =>
      if bool_decide (fmt = "mp3") then
        match convert_to_mp3_ffmpeg which decode (temp_audio_wav td) (final_audio_path td fmt) w1 with
        | (Raise e, w2) => (Raise e, w2)
        | (Ret _, w2) =>
            match fs_read (fs w2) (final_audio_path td fmt) with
            | inl e => (Raise e, w2)
            | inr audio => (Ret (Some audio), w2)
            end
        end
      else
        match fs_read (fs w1) (temp_audio_wav td) with
        | inl e => (Raise e, w1)
        | inr audio => (Ret (Some audio), w1)
        end
  end.
Proof.
  unfold try_block, bind, ret, lift_fs_read.
  destruct (extract_audio_ffmpeg _ _ _ _ w) as [[[]|e] w1]; [|reflexivity].
  case_bool_decide.
  - destruct (convert_to_mp3_ffmpeg _ _ _ _ w1) as [[[]|e] w2]; [|reflexivity].
    by destruct (fs_read _ _).
  - by destruct (fs_read _ _).
Qed.

(** The toolkit calls of a [try] block: the extraction, then the
    compression when asked for and reached. *)
Lemma try_block_calls td fn fmt w :
  let ex := extract_cmd (temp_video_path td fn) (temp_audio_wav td) in
  let co := convert_cmd (temp_audio_wav td) (final_audio_path td fmt) in
  let w' := (try_block which decode td fn fmt w).2 in
  run_calls w' = (run_calls w ++ [ex])%list
  ∨ fmt = "mp3" ∧ run_calls w' = (run_calls w ++ [ex; co])%list.
Proof.
  cbv zeta. rewrite try_block_eq.
  pose proof (extract_audio_ffmpeg_calls which decode
                (temp_video_path td fn) (temp_audio_wav td) w) as Hex.
  destruct (extract_audio_ffmpeg _ _ _ _ w) as [[[]|e] w1]; simpl in Hex;
    [|by left].
  case_bool_decide as Hfmt.
  - right. split; [done|].
    pose proof (convert_to_mp3_ffmpeg_calls which decode
                  (temp_audio_wav td) (final_audio_path td fmt) w1) as Hco.
    destruct (convert_to_mp3_ffmpeg _ _ _ _ w1) as [[[]|e] w2]; simpl in Hco.
    + destruct (fs_read _ _); simpl; rewrite Hco, Hex, <- app_assoc; done.
    + simpl. rewrite Hco, Hex, <- app_assoc. done.
  - left. destruct (fs_read _ _); simpl; done.
Qed.

Lemma with_block_calls v fn fmt td w :
  let ex := extract_cmd (temp_video_path td fn) (temp_audio_wav td) in
  let co := convert_cmd (temp_audio_wav td) (final_audio_path td fmt) in
  let w' := (with_block which decode v fn fmt td w).2 in
  run_calls w' = run_calls w
  ∨ run_calls w' = (run_calls w ++ [ex])%list
  ∨ fmt = "mp3" ∧ run_calls w' = (run_calls w ++ [ex; co])%list.
Proof.
  cbv zeta. rewrite with_block_eq.
  destruct (fs_write _ _ _) as [e|f1]; [by left|].
  right.
  pose proof (try_block_calls td fn fmt (set_fs f1 w)) as H. cbv zeta in H.
  destruct (try_block _ _ _ _ _ _) as [[a|e] w2]; exact H.
Qed.

(** C6. Every extraction calls the toolkit with the arguments
    [-y -i <video> -vn -acodec pcm_s16le <wav>] and every compression with
    [-y -i <wav> -acodec libmp3lame -q:a 2 <out>], in this order; and the
    toolkit calls of a pipeline run are, in this order, the extraction of
    the persisted source into the intermediate WAV and then, at most, the
    compression of that WAV into the final artifact. *)
Theorem C6_toolkit_argument_lists :
  (∀ video wav w,
     run_calls (extract_audio_ffmpeg which decode video wav w).2
     = (run_calls w ++
        [["ffmpeg"; "-y"; "-i"; video; "-vn"; "-acodec"; "pcm_s16le"; wav]])%list)
  ∧ (∀ wav out w,
     run_calls (convert_to_mp3_ffmpeg which decode wav out w).2
     = (run_calls w ++
        [["ffmpeg"; "-y"; "-i"; wav; "-acodec"; "libmp3lame"; "-q:a"; "2"; out]])%list)
  ∧ (∀ v fn fmt td w,
     let video := os_path_join td fn in
     let wav := os_path_join td "temp_audio.wav" in
     let out := os_path_join td ("extracted_audio." +:+ fmt) in
     let ex := ["ffmpeg"; "-y"; "-i"; video; "-vn"; "-acodec"; "pcm_s16le"; wav] in
     let co := ["ffmpeg"; "-y"; "-i"; wav; "-acodec"; "libmp3lame"; "-q:a"; "2"; out] in
     let w' := (with_block which decode v fn fmt td w).2 in
     run_calls w' = run_calls w
     ∨ run_calls w' = (run_calls w ++ [ex])%list
     ∨ run_calls w' = (run_calls w ++ [ex; co])%list).
Proof.
  split; [|split].
  - intros. apply extract_audio_ffmpeg_calls.
  - intros. apply convert_to_mp3_ffmpeg_calls.
  - intros v fn fmt td w. cbv zeta.
    destruct (with_block_calls v fn fmt td w) as [H|[H|[_ H]]]; auto.
Qed.

(** C7. With the target format [wav] the toolkit is called once, for the
    extraction, and the bytes returned are the contents of the
    intermediate WAV file: no encoding step takes place.  Whenever the
    source is written, the extraction exits with status 0 and the
    intermediate WAV can be read, the call returns exactly the bytes of
    that file, in the file system as the extraction left it. *)
Theorem C7_wav_is_passthrough v fn td w o w' :
  with_block which decode v fn "wav" td w = (o, w') →
  (run_calls w' = run_calls w
   ∨ run_calls w' =
       (run_calls w ++
        [["ffmpeg"; "-y"; "-i"; os_path_join td fn; "-vn"; "-acodec"; "pcm_s16le";
          os_path_join td "temp_audio.wav"]])%list)
  ∧ (∀ audio, o = Ret (Some audio) →
       fs_read (fs w') (temp_audio_wav td) = inr audio
       ∧ run_calls w' =
           (run_calls w ++
            [extract_cmd (temp_video_path td fn) (temp_audio_wav td)])%list)
  ∧ (∀ f1 prog audio,
       fs_write (fs w) (temp_video_path td fn) v = inr f1 →
       which "ffmpeg" = Some prog →
       let c := prog ["-y"; "-i"; temp_video_path td fn; "-vn"; "-acodec"; "pcm_s16le";
                      temp_audio_wav td] f1 in
       returncode c = 0%Z →
       fs_read (fs_after c) (temp_audio_wav td) = inr audio →
       o = Ret (Some audio)
       ∧ fs w' = fs_after c
       ∧ run_calls w' =
           (run_calls w ++
            [extract_cmd (temp_video_path td fn) (temp_audio_wav td)])%list).
Proof.
  intros Hrun.
  assert (Hcalls : run_calls w' = run_calls w
                   ∨ run_calls w' = (run_calls w ++
                       [extract_cmd (temp_video_path td fn) (temp_audio_wav td)])%list).
  { pose proof (with_block_calls v fn "wav" td w) as H. cbv zeta in H.
    rewrite Hrun in H. simpl in H. destruct H as [H|[H|[Hmp3 _]]]; auto.
    discriminate Hmp3. }
  split; [exact Hcalls|]. split.
  - intros audio ->. rewrite with_block_eq in Hrun.
    destruct (fs_write _ _ _) as [e|f1]; [discriminate|].
    rewrite try_block_eq in Hrun.
    pose proof (extract_audio_ffmpeg_calls which decode
                  (temp_video_path td fn) (temp_audio_wav td) (set_fs f1 w)) as Hex.
    destruct (extract_audio_ffmpeg _ _ _ _ _) as [[[]|e] w1]; [|discriminate].
    rewrite bool_decide_eq_false_2 in Hrun by discriminate.
    destruct (fs_read (fs w1) _) as [e|audio'] eqn:Hread; [discriminate|].
    injection Hrun as <- <-. split; [exact Hread|exact Hex].
  - intros f1 prog audio Hwr Hwhich c Hrc Hread.
    rewrite with_block_eq, Hwr, try_block_eq in Hrun.
    rewrite extract_audio_ffmpeg_eq, Hwhich in Hrun. cbv zeta in Hrun.
    change (prog (tail (extract_cmd (temp_video_path td fn) (temp_audio_wav td)))
                 (fs (set_fs f1 w))) with c in Hrun.
    rewrite (bool_decide_eq_true_2 _ Hrc) in Hrun.
    rewrite bool_decide_eq_false_2 in Hrun by discriminate.
    cbn [fs set_fs called set_run_calls] in Hrun. rewrite Hread in Hrun.
    injection Hrun as <- <-. done.
Qed.

End Pipeline.

(** ** Whole runs *)

Section Runs.

Variable which : string → option Program.
Variable decode : bytes → option string.

Local Abbreviation wrapped := (extract_audio_for_download_wrapped which decode).
Local Abbreviation entry := (extract_audio_for_download which decode).

Lemma wrapped_run v fn fmt w name r f ns :
  mkdtemp_from (tempdir w) (tmp_names w) (fs w) = (inr (name, r, f), ns) →
  wrapped v fn fmt w =
  match fs_write f (temp_video_path name fn) v with
  | inl e => (Raise e, set_fs (rmtree f r) (set_tmp_names ns w))
  | inr f1 =>
      match try_block which decode name fn fmt (set_fs f1 (set_tmp_names ns w)) with
      | (Ret a, w2) => (Ret a, set_fs (rmtree (fs w2) r) w2)
      | (Raise _, w2) => (Ret None, set_fs (rmtree (fs w2) r) w2)
      end
  end.
Proof.
  intros Hmk. rewrite wrapped_eq, Hmk, with_block_eq. cbn [fs set_fs].
  destruct (fs_write _ _ _) as [e|f1]; [reflexivity|].
  change (set_fs f1 (set_fs f (set_tmp_names ns w)))
    with (set_fs f1 (set_tmp_names ns w)).
  destruct (try_block _ _ _ _ _ _) as [[a|e] w2]; reflexivity.
Qed.

(** The memo table belongs to the decorator: the function never
    touches it. *)
Lemma extract_audio_ffmpeg_memo v o w :
  memo (extract_audio_ffmpeg which decode v o w).2 = memo w.
Proof.
  rewrite extract_audio_ffmpeg_eq. cbv zeta.
  destruct (which "ffmpeg"); [|reflexivity].
  case_bool_decide; [reflexivity|].
  unfold reported. destruct (decode _); reflexivity.
Qed.

Lemma convert_to_mp3_ffmpeg_memo i o w :
  memo (convert_to_mp3_ffmpeg which decode i o w).2 = memo w.
Proof.
  rewrite convert_to_mp3_ffmpeg_eq. cbv zeta.
  destruct (which "ffmpeg"); [|reflexivity].
  case_bool_decide; [reflexivity|].
  unfold reported. destruct (decode _); reflexivity.
Qed.

Lemma try_block_memo td fn fmt w :
  memo (try_block which decode td fn fmt w).2 = memo w.
Proof.
  rewrite try_block_eq.
  pose proof (extract_audio_ffmpeg_memo (temp_video_path td fn) (temp_audio_wav td) w) as Hex.
  destruct (extract_audio_ffmpeg _ _ _ _ w) as [[[]|e] w1]; simpl in Hex; [|done].
  case_bool_decide.
  - pose proof (convert_to_mp3_ffmpeg_memo (temp_audio_wav td) (final_audio_path td fmt) w1) as Hco.
    destruct (convert_to_mp3_ffmpeg _ _ _ _ w1) as [[[]|e] w2]; simpl in Hco.
    + destruct (fs_read _ _); simpl; congruence.
    + simpl; congruence.
  - destruct (fs_read _ _); simpl; congruence.
Qed.

Lemma wrapped_memo v fn fmt w : memo (wrapped v fn fmt w).2 = memo w.
Proof.
  destruct (mkdtemp_from (tempdir w) (tmp_names w) (fs w)) as [[e|[[name r] f]] ns] eqn:Hmk.
  - rewrite wrapped_eq, Hmk. reflexivity.
  - rewrite (wrapped_run _ _ _ _ _ _ _ _ Hmk).
    destruct (fs_write _ _ _) as [e|f1]; [reflexivity|].
    pose proof (try_block_memo name fn fmt (set_fs f1 (set_tmp_names ns w))) as H.
    destruct (try_block _ _ _ _ _ _) as [[a|e] w2]; exact H.
Qed.

(** ** The decorator *)

Lemma cache_data_miss f a b c w :
  memo w !! (a, b, c) = None →
  cache_data f a b c w =
  match f a b c w with
  | (Ret v, w') =>
      (Ret v, set_memo (<[ (a, b, c) := (v, drop (length (ui w)) (ui w')) ]> (memo w')) w')
  | (Raise e, w') => (Raise e, w')
  end.
Proof. intros H. unfold cache_data. by rewrite H. Qed.

Lemma cache_data_hit f a b c w v msgs :
  memo w !! (a, b, c) = Some (v, msgs) →
  cache_data f a b c w = (Ret v, set_ui (ui w ++ msgs)%list w).
Proof. intros H. unfold cache_data. by rewrite H. Qed.

Lemma cache_data_miss_outcome f a b c w :
  memo w !! (a, b, c) = None → (cache_data f a b c w).1 = (f a b c w).1.
Proof.
  intros H. rewrite (cache_data_miss _ _ _ _ _ H).
  by destruct (f a b c w) as [[v|e] w'].
Qed.

(** ** Workspace *)

(** The directory [mkdtemp] returns is new. *)
Lemma mkdtemp_from_fresh base names f0 name r f ns :
  mkdtemp_from base names f0 = (inr (name, r, f), ns) →
  is_dir f0 r = false ∧ is_file f0 r = false
  ∧ dirs f = {[ r ]} ∪ dirs f0 ∧ files f = files f0.
Proof.
  revert ns. induction names as [|n names IH]; intros ns; simpl; [discriminate|].
  unfold mkdir. destruct (resolve f0 _) as [e|r'].
  - destruct e; try discriminate. apply IH.
  - destruct (is_dir f0 r') eqn:Hd; simpl; [apply IH|].
    destruct (is_file f0 r') eqn:Hf; simpl; [apply IH|].
    destruct (is_dir f0 (removelast r')); [|discriminate].
    intros [= <- <- <- <-]. done.
Qed.

Lemma rmtree_gone f r p :
  r `prefix_of` p → files (rmtree f r) !! p = None ∧ p ∉ dirs (rmtree f r).
Proof.
  intros Hpre. split.
  - apply map_lookup_filter_None. right. intros x _ Hn. by apply Hn.
  - unfold rmtree. simpl. rewrite elem_of_filter. intros [Hn _]. by apply Hn.
Qed.

Lemma rmtree_elsewhere f r p :
  ¬ r `prefix_of` p →
  files (rmtree f r) !! p = files f !! p ∧ (p ∈ dirs (rmtree f r) ↔ p ∈ dirs f).
Proof.
  intros Hn. split.
  - unfold rmtree. simpl. destruct (files f !! p) as [x|] eqn:Hx.
    + apply map_lookup_filter_Some. done.
    + apply map_lookup_filter_None. by left.
  - unfold rmtree. simpl. rewrite elem_of_filter. tauto.
Qed.

(** The invariant of the temporary directory: whatever way the run
    ends, neither the workspace nor anything below it is left. *)
Lemma workspace_destroyed v fn fmt w name r f ns p :
  mkdtemp_from (tempdir w) (tmp_names w) (fs w) = (inr (name, r, f), ns) →
  r `prefix_of` p →
  files (fs (wrapped v fn fmt w).2) !! p = None
  ∧ p ∉ dirs (fs (wrapped v fn fmt w).2).
Proof.
  intros Hmk Hpre. rewrite (wrapped_run _ _ _ _ _ _ _ _ Hmk).
  destruct (fs_write _ _ _) as [e|f1]; [by apply rmtree_gone|].
  destruct (try_block _ _ _ _ _ _) as [[a|e] w2]; by apply rmtree_gone.
Qed.

(** C1 (as amended). Whatever exception the [try] block of a run ends
    with (missing toolkit, failed extraction, failed encoding, unreadable
    artifact), the run returns the one value [None]: the class and the
    diagnostic of the failure are not part of the result. *)
Theorem C1_every_caught_failure_returns_None v fn fmt w e :
  caught_exception which decode v fn fmt w = Some e →
  (wrapped v fn fmt w).1 = Ret None.
Proof.
  unfold caught_exception.
  destruct (mkdtemp_from _ _ _) as [[e0|[[name r] f]] ns] eqn:Hmk; [discriminate|].
  rewrite (wrapped_run _ _ _ _ _ _ _ _ Hmk).
  destruct (fs_write _ _ _) as [e1|f1]; [discriminate|].
  destruct (try_block _ _ _ _ _ _) as [[a|e2] w2]; simpl; [discriminate|done].
Qed.

(** C2 (as amended). Once the workspace exists and the source is
    persisted, a buffer on which the toolkit's extraction exits with a
    nonzero status makes the call (when not served from the cache)
    return the failure value [None], never audio bytes; the toolkit is
    called once, and its diagnostic is shown through [st.error] when it
    decodes. *)
Theorem C2_rejected_input_returns_None v fn fmt w name r f ns f1 prog :
  memo w !! (v, fn, fmt) = None →
  mkdtemp_from (tempdir w) (tmp_names w) (fs w) = (inr (name, r, f), ns) →
  fs_write f (temp_video_path name fn) v = inr f1 →
  which "ffmpeg" = Some prog →
  let cmd := ["ffmpeg"; "-y"; "-i"; temp_video_path name fn;
              "-vn"; "-acodec"; "pcm_s16le"; temp_audio_wav name] in
  let c := prog (tail cmd) f1 in
  returncode c ≠ 0%Z →
  let '(o, w') := entry v fn fmt w in
  o = Ret None
  ∧ run_calls w' = (run_calls w ++ [cmd])%list
  ∧ ui w' = (ui w ++ match decode (stderr c) with
                     | Some text => ["FFmpeg extraction failed! Output: " +:+ text]
                     | None => []
                     end)%list.
Proof.
  intros Hmiss Hmk Hwr Hwhich cmd c Hrc.
  unfold extract_audio_for_download. rewrite (cache_data_miss _ _ _ _ _ Hmiss).
  rewrite (wrapped_run _ _ _ _ _ _ _ _ Hmk), Hwr, try_block_eq.
  rewrite extract_audio_ffmpeg_eq, Hwhich. cbv zeta.
  change (prog (tail (extract_cmd (temp_video_path name fn) (temp_audio_wav name)))
               (fs (set_fs f1 (set_tmp_names ns w)))) with c.
  rewrite bool_decide_eq_false_2 by exact Hrc.
  unfold reported. destruct (decode (stderr c)) as [text|]; simpl.
  - repeat split; try done.
  - repeat split; try done. by rewrite app_nil_r.
Qed.

(** C10. The entry point converts failures asymmetrically.  When writing
    the source into the workspace fails, the exception leaves the entry
    point.  When the write succeeds, the call always returns: the value
    of the [try] block if it completes, and [None] if extraction,
    encoding or the final read raises. *)
Theorem C10_only_try_block_failures_are_converted v fn fmt w name r f ns :
  memo w !! (v, fn, fmt) = None →
  mkdtemp_from (tempdir w) (tmp_names w) (fs w) = (inr (name, r, f), ns) →
  match fs_write f (temp_video_path name fn) v with
  | inl e =>
      (entry v fn fmt w).1 = Raise e ∧ (wrapped v fn fmt w).1 = Raise e
  | inr f1 =>
      match (try_block which decode name fn fmt (set_fs f1 (set_tmp_names ns w))).1 with
      | Raise _ =>
          (entry v fn fmt w).1 = Ret None ∧ (wrapped v fn fmt w).1 = Ret None
      | Ret a =>
          (entry v fn fmt w).1 = Ret a ∧ (wrapped v fn fmt w).1 = Ret a
      end
  end.
Proof.
  intros Hmiss Hmk. unfold extract_audio_for_download.
  rewrite (cache_data_miss_outcome _ _ _ _ _ Hmiss).
  rewrite (wrapped_run _ _ _ _ _ _ _ _ Hmk).
  destruct (fs_write _ _ _) as [e|f1]; [done|].
  destruct (try_block _ _ _ _ _ _) as [[a|e] w2]; done.
Qed.

(** C4 (as amended). The decorator stores the value of every call that
    returns, the failure value [None] like audio bytes; only a call that
    raises stores nothing.  A stored value, [None] included, is what any
    later call with the same arguments returns, without a toolkit call,
    whatever the toolkit would do by then. *)
Theorem C4_returned_failures_are_cached v fn fmt w :
  memo w !! (v, fn, fmt) = None →
  let '(o, w') := entry v fn fmt w in
  match o with
  | Ret r =>
      o = (wrapped v fn fmt w).1
      ∧ ∃ msgs, memo w' !! (v, fn, fmt) = Some (r, msgs)
         ∧ ∀ which' decode',
             extract_audio_for_download which' decode' v fn fmt w'
             = (Ret r, set_ui (ui w' ++ msgs)%list w')
  | Raise _ => memo w' !! (v, fn, fmt) = None
  end.
Proof.
  intros Hmiss. unfold extract_audio_for_download.
  rewrite (cache_data_miss _ _ _ _ _ Hmiss).
  pose proof (wrapped_memo v fn fmt w) as Hmemo.
  destruct (wrapped v fn fmt w) as [[r|e] w1]; simpl in *.
  - split; [done|]. eexists. split; [apply lookup_insert_eq|].
    intros which' decode'. unfold cache_data. cbn [memo set_memo].
    by rewrite lookup_insert_eq.
  - by rewrite Hmemo.
Qed.

(** C8. When a call returns, a second call with the same bytes, filename
    and format returns the same value from the memo entry stored under
    that triple: the toolkit is not called and the file system is not
    touched, whatever the environment has become. *)
Theorem C8_second_call_served_from_cache which' decode' v fn fmt w r w1 :
  entry v fn fmt w = (Ret r, w1) →
  ∃ msgs,
    memo w1 !! (v, fn, fmt) = Some (r, msgs)
    ∧ extract_audio_for_download which' decode' v fn fmt w1
      = (Ret r, set_ui (ui w1 ++ msgs)%list w1)
    ∧ run_calls (extract_audio_for_download which' decode' v fn fmt w1).2 = run_calls w1
    ∧ fs (extract_audio_for_download which' decode' v fn fmt w1).2 = fs w1.
Proof.
  intros Hfirst.
  assert (∃ msgs, memo w1 !! (v, fn, fmt) = Some (r, msgs)) as [msgs Hm].
  { unfold extract_audio_for_download, cache_data in Hfirst.
    destruct (memo w !! (v, fn, fmt)) as [[v0 msgs]|] eqn:Hlook.
    - injection Hfirst as <- <-. eauto.
    - destruct (extract_audio_for_download_wrapped _ _ _ _ _ w) as [[r'|e] w']; [|discriminate].
      injection Hfirst as <- <-. eexists. simpl. apply lookup_insert_eq. }
  exists msgs. split; [exact Hm|].
  unfold extract_audio_for_download.
  rewrite (cache_data_hit _ _ _ _ _ _ _ Hm). done.
Qed.

End Runs.

(** ** The command line of the compression *)

(** C5 (as amended). The compression runs the MP3 encoder on the WAV
    with the variable-bitrate quality [-q:a 2], which is the third
    highest step of the scale 0 to 9 (0 being the highest fidelity). *)
Theorem C5_mp3_quality_is_third_step
  (which : string → option Program) (decode : bytes → option string)
  (wav out : string) (w : World) :
  ∃ q, kth_highest_quality 3 = Some q
       ∧ run_calls (convert_to_mp3_ffmpeg which decode wav out w).2
         = (run_calls w ++
            [["ffmpeg"; "-y"; "-i"; wav; "-acodec"; "libmp3lame"; "-q:a"; q; out]])%list.
Proof.
  exists "2". split; [reflexivity|]. apply convert_to_mp3_ffmpeg_calls.
Qed.

(** C5 does not hold as the specification states it: the second highest step of the scale
    is ["1"], and the command asks for ["2"]. *)
Lemma C5_quality_is_not_second_step :
  kth_highest_quality 2 = Some "1"
  ∧ option_value "-q:a"
      (convert_cmd "/tmp/tmpk3x9_q0a/temp_audio.wav" "/tmp/tmpk3x9_q0a/extracted_audio.mp3")
    = Some "2"
  ∧ option_value "-q:a"
      (convert_cmd "/tmp/tmpk3x9_q0a/temp_audio.wav" "/tmp/tmpk3x9_q0a/extracted_audio.mp3")
    ≠ kth_highest_quality 2.
Proof.
  split; [reflexivity|]. split; [reflexivity|].
  vm_compute. discriminate.
Qed.

(** ** Concrete runs *)

Import Sample.

Local Ltac run := vm_compute; reflexivity.
Local Ltac by_instance H := vm_compute in H; vm_compute; exact H.

(** C1 does not hold as the specification states it: a run without the toolkit and a run
    on a buffer the toolkit rejects end with different exceptions, one of
    them carrying the toolkit's diagnostic, and return the same value
    [None]. *)
Lemma C1_distinct_failures_same_result :
  caught_exception missing decode video "clip.mp4" "mp3" w0
    = Some (FileNotFoundError "ffmpeg")
  ∧ caught_exception installed decode garbage "clip.mp4" "mp3" w0
    = Some (CalledProcessError 1
              ["ffmpeg"; "-y"; "-i"; "/tmp/tmpk3x9_q0a/clip.mp4"; "-vn"; "-acodec";
               "pcm_s16le"; "/tmp/tmpk3x9_q0a/temp_audio.wav"]
              (b "Invalid data found when processing input"))
  ∧ (extract_audio_for_download missing decode video "clip.mp4" "mp3" w0).1 = Ret None
  ∧ (extract_audio_for_download installed decode garbage "clip.mp4" "mp3" w0).1 = Ret None.
Proof. split; [run|]. split; [run|]. split; run. Qed.

Lemma C1_witness :
  (extract_audio_for_download_wrapped installed decode garbage "clip.mp4" "mp3" w0).1
  = Ret None.
Proof.
  assert (Hc : caught_exception installed decode garbage "clip.mp4" "mp3" w0
               = Some (CalledProcessError 1
                   ["ffmpeg"; "-y"; "-i"; "/tmp/tmpk3x9_q0a/clip.mp4"; "-vn"; "-acodec";
                    "pcm_s16le"; "/tmp/tmpk3x9_q0a/temp_audio.wav"]
                   (b "Invalid data found when processing input"))) by run.
  exact (C1_every_caught_failure_returns_None installed decode garbage
           "clip.mp4" "mp3" w0 _ Hc).
Defined.

(** C2 does not hold as the specification states it: the toolkit rejects the buffer
    [garbage] (first conjunct), yet with a filename whose path cannot be
    written the call does not return an error, it raises. *)
Lemma C2_rejected_input_can_raise :
  returncode (ffmpeg ["-y"; "-i"; "/tmp/tmpk3x9_q0a/clip.mp4"; "-vn"; "-acodec";
                      "pcm_s16le"; "/tmp/tmpk3x9_q0a/temp_audio.wav"]
                     (fs_with "clip.mp4" garbage)) = 1%Z
  ∧ (extract_audio_for_download installed decode garbage "" "mp3" w0).1
    = Raise (IsADirectoryError "/tmp/tmpk3x9_q0a/")
  ∧ (extract_audio_for_download installed decode garbage "clips/a.mp4" "mp3" w0).1
    = Raise (FileNotFoundError "/tmp/tmpk3x9_q0a/clips/a.mp4").
Proof. split; [run|]. split; run. Qed.

Lemma C2_witness :
  let '(o, w') := extract_audio_for_download installed decode garbage "clip.mp4" "mp3" w0 in
  o = Ret None
  ∧ run_calls w' =
      [["ffmpeg"; "-y"; "-i"; "/tmp/tmpk3x9_q0a/clip.mp4"; "-vn"; "-acodec";
        "pcm_s16le"; "/tmp/tmpk3x9_q0a/temp_audio.wav"]]
  ∧ ui w' = ["FFmpeg extraction failed! Output: Invalid data found when processing input"].
Proof.
  assert (H1 : memo w0 !! (garbage, "clip.mp4", "mp3") = None) by run.
  assert (H2 : mkdtemp_from (tempdir w0) (tmp_names w0) (fs w0)
               = (inr (ws_name, ws_path, fs1), ["p71mzz4c"; "0wd8s_e2"])) by run.
  assert (H3 : fs_write fs1 (temp_video_path ws_name "clip.mp4") garbage
               = inr (fs_with "clip.mp4" garbage)) by run.
  assert (H4 : installed "ffmpeg" = Some ffmpeg) by reflexivity.
  pose proof (C2_rejected_input_returns_None installed decode garbage "clip.mp4" "mp3" w0
                ws_name ws_path fs1 _ _ ffmpeg H1 H2 H3 H4) as H.
  cbv zeta in H.
  assert (H5 : returncode
                 (ffmpeg (tail ["ffmpeg"; "-y"; "-i"; temp_video_path ws_name "clip.mp4";
                                "-vn"; "-acodec"; "pcm_s16le"; temp_audio_wav ws_name])
                         (fs_with "clip.mp4" garbage)) ≠ 0%Z)
    by (vm_compute; discriminate).
  specialize (H H5). by_instance H.
Defined.

(** C3, at the input that fails: an absolute filename makes
    [os.path.join] drop the workspace, so the source is written at the
    caller's path; the run succeeds, the workspace is removed, and the
    file written by the run is still there. *)
Theorem C3_source_outside_workspace_survives :
  let run := extract_audio_for_download installed decode video "/srv/clip.mp4" "mp3" w0 in
  temp_video_path ws_name "/srv/clip.mp4" = "/srv/clip.mp4"
  ∧ run.1 = Ret (Some (b "ID3hello"))
  ∧ files (fs w0) !! ["srv"; "clip.mp4"] = None
  ∧ files (fs run.2) !! ["srv"; "clip.mp4"] = Some video
  ∧ is_dir (fs run.2) ws_path = false.
Proof.
  cbv zeta. split; [reflexivity|]. split; [run|]. split; [run|]. split; run.
Qed.

(** C4 does not hold as the specification states it: the first call runs without the
    toolkit and returns [None]; that [None] is stored under the key; the
    second call, made when the toolkit is back, returns the stored [None]
    without calling the toolkit, although a run would now succeed. *)
Lemma C4_failure_is_served_from_cache :
  let first := extract_audio_for_download missing decode video "clip.mp4" "mp3" w0 in
  let second := extract_audio_for_download installed decode video "clip.mp4" "mp3" first.2 in
  first.1 = Ret None
  ∧ memo first.2 !! (video, "clip.mp4", "mp3")
    = Some (None, ["FFmpeg not found. Please ensure it is installed and in your system PATH."])
  ∧ second.1 = Ret None
  ∧ run_calls second.2 = run_calls first.2
  ∧ (extract_audio_for_download_wrapped installed decode video "clip.mp4" "mp3" first.2).1
    = Ret (Some (b "ID3hello")).
Proof.
  cbv zeta. split; [run|]. split; [run|]. split; [run|]. split; run.
Qed.

Lemma C4_witness :
  ∃ msgs,
    memo (extract_audio_for_download missing decode video "clip.mp4" "mp3" w0).2
      !! (video, "clip.mp4", "mp3") = Some (None, msgs).
Proof.
  assert (H1 : memo w0 !! (video, "clip.mp4", "mp3") = None) by run.
  pose proof (C4_returned_failures_are_cached missing decode video "clip.mp4" "mp3" w0 H1) as H.
  vm_compute in H. destruct H as [_ [msgs [Hm _]]].
  exists msgs. vm_compute. exact Hm.
Defined.

Lemma C7_witness :
  let run := with_block installed decode video "clip.mp4" "wav" ws_name w_ws in
  run.1 = Ret (Some (b "RIFFhello"))
  ∧ fs_read (fs run.2) (temp_audio_wav ws_name) = inr (b "RIFFhello")
  ∧ run_calls run.2 =
      [["ffmpeg"; "-y"; "-i"; "/tmp/tmpk3x9_q0a/clip.mp4"; "-vn"; "-acodec"; "pcm_s16le";
        "/tmp/tmpk3x9_q0a/temp_audio.wav"]].
Proof.
  cbv zeta.
  assert (H1 : with_block installed decode video "clip.mp4" "wav" ws_name w_ws
               = ((with_block installed decode video "clip.mp4" "wav" ws_name w_ws).1,
                  (with_block installed decode video "clip.mp4" "wav" ws_name w_ws).2)) by run.
  assert (Hwr : fs_write (fs w_ws) (temp_video_path ws_name "clip.mp4") video
                = inr (fs_with "clip.mp4" video)) by run.
  assert (Hwhich : installed "ffmpeg" = Some ffmpeg) by reflexivity.
  assert (Hrc : returncode
                  (ffmpeg ["-y"; "-i"; temp_video_path ws_name "clip.mp4"; "-vn"; "-acodec";
                           "pcm_s16le"; temp_audio_wav ws_name]
                          (fs_with "clip.mp4" video)) = 0%Z) by run.
  assert (Hread : fs_read
                    (fs_after
                       (ffmpeg ["-y"; "-i"; temp_video_path ws_name "clip.mp4"; "-vn";
                                "-acodec"; "pcm_s16le"; temp_audio_wav ws_name]
                               (fs_with "clip.mp4" video)))
                    (temp_audio_wav ws_name) = inr (b "RIFFhello")) by run.
  pose proof (C7_wav_is_passthrough installed decode video "clip.mp4" ws_name w_ws
                _ _ H1) as (_ & Hgiven & Hgives).
  destruct (Hgives _ _ _ Hwr Hwhich Hrc Hread) as (Ho & _ & _).
  split; [exact Ho|].
  pose proof (Hgiven (b "RIFFhello") Ho) as H.
  vm_compute in H. vm_compute. exact H.
Defined.

Lemma C8_witness :
  let first := extract_audio_for_download installed decode video "clip.mp4" "mp3" w0 in
  let second := extract_audio_for_download missing decode video "clip.mp4" "mp3" first.2 in
  second.1 = Ret (Some (b "ID3hello"))
  ∧ run_calls second.2 = run_calls first.2
  ∧ fs second.2 = fs first.2.
Proof.
  cbv zeta.
  assert (H1 : extract_audio_for_download installed decode video "clip.mp4" "mp3" w0
               = (Ret (Some (b "ID3hello")),
                  (extract_audio_for_download installed decode video "clip.mp4" "mp3" w0).2))
    by run.
  destruct (C8_second_call_served_from_cache installed decode missing decode
              video "clip.mp4" "mp3" w0 _ _ H1) as [msgs [_ [Hsecond [Hcalls Hfs]]]].
  split; [|split; [exact Hcalls|exact Hfs]].
  rewrite Hsecond. reflexivity.
Defined.

(** C9. The filename is joined to the workspace unchecked, so the path
    of the persisted source is not kept apart from the artifact paths:
    with the filename [temp_audio.wav] it is the path of the intermediate
    WAV, and with [extracted_audio.mp3] and the format [mp3] it is the
    path of the final artifact.  The toolkit is then told, with its
    overwrite flag [-y], to write onto the file that holds the source:
    in the sample run that file ends up holding the MP3. *)
Theorem C9_source_path_can_equal_artifact_path :
  (∀ td, temp_video_path td "temp_audio.wav" = temp_audio_wav td)
  ∧ (∀ td, temp_video_path td "extracted_audio.mp3" = final_audio_path td "mp3")
  ∧ (∀ td, extract_cmd (temp_video_path td "temp_audio.wav") (temp_audio_wav td)
           = ["ffmpeg"; "-y"; "-i"; temp_video_path td "temp_audio.wav";
              "-vn"; "-acodec"; "pcm_s16le"; temp_video_path td "temp_audio.wav"])
  ∧ (∀ td, convert_cmd (temp_audio_wav td) (final_audio_path td "mp3")
           = ["ffmpeg"; "-y"; "-i"; temp_audio_wav td; "-acodec"; "libmp3lame";
              "-q:a"; "2"; temp_video_path td "extracted_audio.mp3"])
  ∧ (let src := temp_video_path ws_name "extracted_audio.mp3" in
     let run := with_block installed decode video "extracted_audio.mp3" "mp3" ws_name w_ws in
     fs_write (fs w_ws) src video = inr (fs_with "extracted_audio.mp3" video)
     ∧ fs_read (fs_with "extracted_audio.mp3" video) src = inr video
     ∧ run.1 = Ret (Some (b "ID3hello"))
     ∧ fs_read (fs run.2) src = inr (b "ID3hello")
     ∧ fs_read (fs run.2) src ≠ inr video).
Proof.
  split; [reflexivity|]. split; [reflexivity|]. split; [reflexivity|].
  split; [reflexivity|]. cbv zeta.
  split; [run|]. split; [run|]. split; [run|]. split; [run|].
  vm_compute. discriminate.
Qed.

Lemma C10_witness :
  (extract_audio_for_download installed decode video "" "mp3" w0).1
    = Raise (IsADirectoryError "/tmp/tmpk3x9_q0a/")
  ∧ (extract_audio_for_download installed decode garbage "clip.mp4" "mp3" w0).1
    = Ret None
  ∧ (extract_audio_for_download installed decode video "clip.mp4" "wav" w0).1
    = Ret (Some (b "RIFFhello")).
Proof.
  assert (Hmk : mkdtemp_from (tempdir w0) (tmp_names w0) (fs w0)
                = (inr (ws_name, ws_path, fs1), ["p71mzz4c"; "0wd8s_e2"])) by run.
  assert (H1 : memo w0 !! (video, "", "mp3") = None) by run.
  assert (H2 : memo w0 !! (garbage, "clip.mp4", "mp3") = None) by run.
  assert (H3 : memo w0 !! (video, "clip.mp4", "wav") = None) by run.
  pose proof (C10_only_try_block_failures_are_converted installed decode
                video "" "mp3" w0 _ _ _ _ H1 Hmk) as Ha.
  pose proof (C10_only_try_block_failures_are_converted installed decode
                garbage "clip.mp4" "mp3" w0 _ _ _ _ H2 Hmk) as Hb.
  pose proof (C10_only_try_block_failures_are_converted installed decode
                video "clip.mp4" "wav" w0 _ _ _ _ H3 Hmk) as Hc.
  vm_compute in Ha. vm_compute in Hb. vm_compute in Hc.
  split; [|split]; vm_compute; [exact (proj1 Ha)|exact (proj1 Hb)|exact (proj1 Hc)].
Defined.

(** * Further properties *)

(** ** The download name *)

Lemma rsplit_last_dot_None (s : string) :
  rsplit_last_dot s = None ↔ contains_char "." s = false.
Proof.
  induction s as [|c s IH]; simpl; [done|].
  destruct (rsplit_last_dot s) as [[before after]|].
  - split; [done|]. intros H. apply orb_false_elim in H as [_ H].
    apply IH in H. discriminate.
  - case_bool_decide; simpl; [done|]. split; [intros _|done]. by apply IH.
Qed.

Lemma rsplit_last_dot_Some (s before after : string) :
  rsplit_last_dot s = Some (before, after) →
  s = before +:+ "." +:+ after ∧ contains_char "." after = false.
Proof.
  revert before. induction s as [|c s IH]; intros before; simpl; [done|].
  destruct (rsplit_last_dot s) as [[b0 a0]|] eqn:Hs.
  - intros [= <- <-]. destruct (IH b0 eq_refl) as [-> Hno]. done.
  - case_bool_decide as Hc; [|done]. intros [= <- <-]. subst c.
    split; [done|]. by apply rsplit_last_dot_None.
Qed.

Lemma rsplit_last_dot_app (stem ext : string) :
  contains_char "." ext = false →
  rsplit_last_dot (stem +:+ "." +:+ ext) = Some (stem, ext).
Proof.
  intros Hno. induction stem as [|c stem IH].
  - apply rsplit_last_dot_None in Hno.
    change (rsplit_last_dot (String "." ext) = Some ("", ext)).
    cbn [rsplit_last_dot]. rewrite Hno. by rewrite bool_decide_eq_true_2.
  - change (rsplit_last_dot (String c (stem +:+ "." +:+ ext))
            = Some (String c stem, ext)).
    cbn [rsplit_last_dot]. by rewrite IH.
Qed.

(** X1. Joining the pieces of [name.rsplit('.', 1)] with a dot gives the
    name back, and there are one or two pieces, the last without a dot
    when there are two. *)
Theorem rsplit_dot_round_trip (name : string) :
  String.concat "." (rsplit_dot name) = name
  ∧ (rsplit_dot name = [name] ∧ contains_char "." name = false
     ∨ ∃ before after,
         rsplit_dot name = [before; after] ∧ contains_char "." after = false).
Proof.
  unfold rsplit_dot.
  destruct (rsplit_last_dot name) as [[before after]|] eqn:H.
  - apply rsplit_last_dot_Some in H as [-> Hno]. split; [done|]. right. eauto.
  - split; [done|]. left. split; [done|]. by apply rsplit_last_dot_None.
Qed.

(** X2. The base name of a file name is the name without its last
    extension: whatever precedes the last dot, dots included. *)
Theorem base_name_strips_last_extension (stem ext : string) :
  contains_char "." ext = false →
  base_name (stem +:+ "." +:+ ext) = stem.
Proof.
  intros Hno. unfold base_name, rsplit_dot.
  by rewrite (rsplit_last_dot_app _ _ Hno).
Qed.

Lemma append_length (a c : string) :
  String.length (a +:+ c) = String.length a + String.length c.
Proof. induction a as [|x a IH]; simpl; [done|]. by rewrite IH. Qed.

(** X3. A name is its own base name exactly when it has no dot: a file
    name without extension is kept whole, and a name ending in a dot or
    starting with one is cut there. *)
Theorem base_name_fixed_iff_no_dot (name : string) :
  base_name name = name ↔ contains_char "." name = false.
Proof.
  unfold base_name, rsplit_dot.
  destruct (rsplit_last_dot name) as [[before after]|] eqn:H.
  - pose proof H as Hsome. apply rsplit_last_dot_Some in H as [Hname _].
    split.
    + intros Heq. apply (f_equal String.length) in Hname.
      rewrite append_length in Hname. simpl in Hname. rewrite Heq in Hname. lia.
    + intros Hno. apply rsplit_last_dot_None in Hno. congruence.
  - split; [|done]. intros _. by apply rsplit_last_dot_None.
Qed.

(** ** Messages, calls and the memo table across a run *)

Section Traces.

Variable which : string → option Program.
Variable decode : bytes → option string.

Local Abbreviation wrapped := (extract_audio_for_download_wrapped which decode).
Local Abbreviation entry := (extract_audio_for_download which decode).

Local Ltac adds_with m :=
  exists m; simpl; rewrite ?app_nil_r;
  split; [congruence|split; [simpl; lia|try done; by intros ? [=]]].

Lemma reported_adds label e err w0 w :
  ui w = ui w0 →
  adds_at_most_one w0 (reported decode label e err w).
Proof.
  intros Hui. unfold reported. destruct (decode err) as [text|].
  - adds_with [label +:+ text].
  - adds_with (@nil string).
Qed.

Lemma extract_audio_ffmpeg_adds v o w :
  adds_at_most_one w (extract_audio_ffmpeg which decode v o w).
Proof.
  rewrite extract_audio_ffmpeg_eq. cbv zeta.
  destruct (which "ffmpeg") as [prog|].
  - case_bool_decide.
    + adds_with (@nil string).
    + by apply reported_adds.
  - adds_with ["FFmpeg not found. Please ensure it is installed and in your system PATH."].
Qed.

Lemma convert_to_mp3_ffmpeg_adds i o w :
  adds_at_most_one w (convert_to_mp3_ffmpeg which decode i o w).
Proof.
  rewrite convert_to_mp3_ffmpeg_eq. cbv zeta.
  destruct (which "ffmpeg") as [prog|].
  - case_bool_decide.
    + adds_with (@nil string).
    + by apply reported_adds.
  - adds_with (@nil string).
Qed.

Lemma try_block_adds td fn fmt w :
  adds_at_most_one w (try_block which decode td fn fmt w).
Proof.
  rewrite try_block_eq.
  destruct (extract_audio_ffmpeg_adds (temp_video_path td fn) (temp_audio_wav td) w)
    as (m1 & Hui1 & Hlen1 & Hret1).
  destruct (extract_audio_ffmpeg _ _ _ _ w) as [[[]|e] w1]; simpl in *.
  2:{ exists m1. simpl. split; [done|]. split; [done|]. intros a [=]. }
  rewrite (Hret1 tt eq_refl), app_nil_r in Hui1.
  case_bool_decide.
  - destruct (convert_to_mp3_ffmpeg_adds (temp_audio_wav td) (final_audio_path td fmt) w1)
      as (m2 & Hui2 & Hlen2 & Hret2).
    destruct (convert_to_mp3_ffmpeg _ _ _ _ w1) as [[[]|e] w2]; simpl in *.
    + rewrite (Hret2 tt eq_refl), app_nil_r, Hui1 in Hui2.
      destruct (fs_read _ _); adds_with (@nil string).
    + exists m2. simpl. rewrite Hui2, Hui1. split; [done|]. split; [done|].
      intros a [=].
  - destruct (fs_read _ _); adds_with (@nil string).
Qed.

(** X4. A run shows at most one error message, and none unless it
    returns [None]: neither a run that returns audio bytes nor a call
    that raises shows an error. *)
Theorem run_shows_at_most_one_error v fn fmt w :
  ∃ msgs,
    ui (extract_audio_for_download_wrapped which decode v fn fmt w).2
    = (ui w ++ msgs)%list
    ∧ (length msgs ≤ 1)%nat
    ∧ ((extract_audio_for_download_wrapped which decode v fn fmt w).1 ≠ Ret None →
       msgs = []).
Proof.
  destruct (mkdtemp_from (tempdir w) (tmp_names w) (fs w))
    as [[e|[[name r] f]] ns] eqn:Hmk.
  - rewrite wrapped_eq, Hmk. exists []. simpl. rewrite app_nil_r.
    split; [done|]. split; [lia|done].
  - rewrite (wrapped_run _ _ _ _ _ _ _ _ _ _ Hmk).
    destruct (fs_write _ _ _) as [e|f1].
    + exists []. simpl. rewrite app_nil_r. split; [done|]. split; [lia|done].
    + destruct (try_block_adds name fn fmt (set_fs f1 (set_tmp_names ns w)))
        as (msgs & Hui & Hlen & Hret).
      destruct (try_block _ _ _ _ _ _) as [[a|e] w2]; simpl in *.
      * exists msgs. split; [done|]. split; [done|]. intros _. by apply (Hret a).
      * exists msgs. split; [done|]. split; [done|]. intros Hne. by destruct Hne.
Qed.

(** X5. With the target format [mp3], a run that returns audio bytes has
    called the toolkit exactly twice, extraction then compression, and
    the bytes are the contents of the final artifact
    [extracted_audio.mp3] of the workspace. *)
Theorem mp3_result_is_the_final_artifact v fn td w audio w' :
  with_block which decode v fn "mp3" td w = (Ret (Some audio), w') →
  run_calls w' =
    (run_calls w ++
     [["ffmpeg"; "-y"; "-i"; os_path_join td fn; "-vn"; "-acodec"; "pcm_s16le";
       os_path_join td "temp_audio.wav"];
      ["ffmpeg"; "-y"; "-i"; os_path_join td "temp_audio.wav"; "-acodec"; "libmp3lame";
       "-q:a"; "2"; os_path_join td "extracted_audio.mp3"]])%list
  ∧ fs_read (fs w') (os_path_join td "extracted_audio.mp3") = inr audio.
Proof.
  intros Hrun. rewrite with_block_eq in Hrun.
  destruct (fs_write _ _ _) as [e|f1]; [discriminate|].
  rewrite try_block_eq in Hrun.
  pose proof (extract_audio_ffmpeg_calls which decode
                (temp_video_path td fn) (temp_audio_wav td) (set_fs f1 w)) as Hex.
  destruct (extract_audio_ffmpeg _ _ _ _ _) as [[[]|e] w1]; [|discriminate].
  rewrite bool_decide_eq_true_2 in Hrun by done.
  pose proof (convert_to_mp3_ffmpeg_calls which decode
                (temp_audio_wav td) (final_audio_path td "mp3") w1) as Hco.
  destruct (convert_to_mp3_ffmpeg _ _ _ _ w1) as [[[]|e] w2]; [|discriminate].
  destruct (fs_read (fs w2) _) as [e|audio'] eqn:Hread; [discriminate|].
  injection Hrun as <- <-. split; [|exact Hread].
  simpl in Hex, Hco. rewrite Hco, Hex, <- app_assoc. reflexivity.
Qed.

(** X6. A call that raises has called no toolkit, shown no message and
    stored nothing: it stopped before the [try] block. *)
Theorem raising_call_leaves_no_trace v fn fmt w e w' :
  extract_audio_for_download which decode v fn fmt w = (Raise e, w') →
  run_calls w' = run_calls w ∧ ui w' = ui w ∧ memo w' = memo w.
Proof.
  unfold extract_audio_for_download, cache_data.
  destruct (memo w !! (v, fn, fmt)) as [[v0 msgs]|]; [discriminate|].
  destruct (mkdtemp_from (tempdir w) (tmp_names w) (fs w))
    as [[e0|[[name r] f]] ns] eqn:Hmk.
  - rewrite wrapped_eq, Hmk. intros [= <- <-]. done.
  - rewrite (wrapped_run _ _ _ _ _ _ _ _ _ _ Hmk).
    destruct (fs_write _ _ _) as [e1|f1].
    + intros [= <- <-]. done.
    + destruct (try_block _ _ _ _ _ _) as [[a|e2] w2]; discriminate.
Qed.

(** X7. A call leaves the memo entries of all other argument triples as
    they are: requests for the same upload in another format, or under
    another name, are cached apart. *)
Theorem other_keys_are_untouched v fn fmt w (k : Key) :
  k ≠ (v, fn, fmt) →
  memo (entry v fn fmt w).2 !! k = memo w !! k.
Proof.
  intros Hne. unfold extract_audio_for_download, cache_data.
  destruct (memo w !! (v, fn, fmt)) as [[v0 msgs]|]; [done|].
  pose proof (wrapped_memo which decode v fn fmt w) as Hmemo.
  destruct (extract_audio_for_download_wrapped _ _ _ _ _ w) as [[r|e] w1];
    simpl in *; [|by rewrite Hmemo].
  rewrite lookup_insert_ne by done. by rewrite Hmemo.
Qed.

(** X8. What a computed call returned and showed is what every later
    call with the same arguments returns and shows again, in any world
    that still holds the entry, without a toolkit call. *)
Theorem hit_repeats_the_original_run v fn fmt w r w1 :
  memo w !! (v, fn, fmt) = None →
  entry v fn fmt w = (Ret r, w1) →
  ∃ msgs,
    ui w1 = (ui w ++ msgs)%list
    ∧ ∀ which' decode' w2,
        memo w2 !! (v, fn, fmt) = memo w1 !! (v, fn, fmt) →
        extract_audio_for_download which' decode' v fn fmt w2
        = (Ret r, set_ui (ui w2 ++ msgs)%list w2).
Proof.
  intros Hmiss. unfold extract_audio_for_download.
  rewrite (cache_data_miss _ _ _ _ _ Hmiss).
  destruct (run_shows_at_most_one_error v fn fmt w) as (msgs & Hui & _ & _).
  destruct (extract_audio_for_download_wrapped _ _ _ _ _ w) as [[r'|e] w']; [|discriminate].
  simpl in Hui. intros [= <- <-]. exists msgs. split; [done|].
  intros which' decode' w2 Hsame. apply cache_data_hit.
  rewrite Hsame. simpl. rewrite lookup_insert_eq, Hui.
  by rewrite drop_app_length.
Qed.

End Traces.

(** ** The page *)

Section PageProperties.

Variable which : string → option Program.
Variable decode : bytes → option string.

Local Abbreviation entry := (extract_audio_for_download which decode).

Lemma main_eq inp w :
  main which decode inp w =
  match uploaded_file inp with
  | None => (Ret page_header, w)
  | Some up =>
      let fmt := choice_value (radio inp) in
      let shown := (page_header ++ page_form (up_data up))%list in
      let spinner :=
        Spinner ("Processing... Extracting audio and converting to "
                 +:+ str_upper fmt +:+ "...") in
      if button inp then
        match entry (up_data up) (up_name up) fmt w with
        | (Ret (Some (x :: rest)), w1) =>
            (Ret (shown ++
                  [spinner;
                   Subheader "✅ Download Ready";
                   DownloadButton ("Download " +:+ download_name (up_name up) fmt)
                     (x :: rest) (download_name (up_name up) fmt) (mime_type fmt)])%list,
             w1)
        | (Ret _, w1) =>
            (Ret (shown ++ [spinner])%list,
             set_ui (ui w1 ++ ["Extraction failed. Check the error logs above."])%list w1)
        | (Raise e, w1) => (Raise e, w1)
        end
      else (Ret shown, w)
  end.
Proof.
  unfold main. destruct (uploaded_file inp) as [up|]; [|reflexivity].
  cbv zeta. destruct (button inp); [|reflexivity].
  unfold bind.
  destruct (extract_audio_for_download _ _ _ _ _ w) as [[[[|x rest]|]|e] w1];
    reflexivity.
Qed.

(** X9. Without an uploaded file, or before the button is clicked, the
    page does nothing behind the scenes: the world is left as it is (no
    pipeline run, no toolkit call, nothing cached, no error shown) and no
    download is offered. *)
Theorem page_is_idle_without_upload_and_click inp w :
  uploaded_file inp = None ∨ button inp = false →
  ∃ els, main which decode inp w = (Ret els, w)
         ∧ existsb is_download els = false.
Proof.
  intros Hidle. rewrite main_eq.
  destruct (uploaded_file inp) as [up|].
  - destruct Hidle as [|Hb]; [done|]. rewrite Hb. cbv zeta. eauto.
  - eauto.
Qed.

(** X10. When the pipeline returns audio that is not empty, the page
    ends with one download button that carries exactly those bytes,
    named after the upload with its last extension replaced by
    [_extracted.<format>], with the MIME type [audio/<format>], for
    either choice of the radio button; no error is added. *)
Theorem download_carries_the_pipeline_result inp up w audio w1 :
  uploaded_file inp = Some up →
  button inp = true →
  entry (up_data up) (up_name up) (choice_value (radio inp)) w = (Ret (Some audio), w1) →
  audio ≠ [] →
  ∃ els,
    main which decode inp w =
      (Ret (els ++
            [DownloadButton
               ("Download " +:+ base_name (up_name up) +:+ "_extracted."
                +:+ choice_value (radio inp))
               audio
               (base_name (up_name up) +:+ "_extracted." +:+ choice_value (radio inp))
               ("audio/" +:+ choice_value (radio inp))])%list,
       w1)
    ∧ existsb is_download els = false.
Proof.
  intros Hup Hb Hrun Hne. rewrite main_eq, Hup, Hb. cbv zeta. rewrite Hrun.
  destruct audio as [|x rest]; [done|].
  exists (page_header ++ page_form (up_data up) ++
          [Spinner ("Processing... Extracting audio and converting to "
                    +:+ str_upper (choice_value (radio inp)) +:+ "...");
           Subheader "✅ Download Ready"])%list.
  split; [|reflexivity].
  unfold download_name, mime_type. by destruct (radio inp).
Qed.

(** X11. When the pipeline returns [None], and also when it returns an
    empty byte string (which the test [if audio_data] takes for a
    failure), the page offers no download and ends with the message
    [Extraction failed. Check the error logs above.] *)
Theorem empty_or_missing_audio_is_reported_as_failure inp up w a w1 :
  uploaded_file inp = Some up →
  button inp = true →
  entry (up_data up) (up_name up) (choice_value (radio inp)) w = (Ret a, w1) →
  a = None ∨ a = Some [] →
  ∃ els,
    main which decode inp w =
      (Ret els,
       set_ui (ui w1 ++ ["Extraction failed. Check the error logs above."])%list w1)
    ∧ existsb is_download els = false.
Proof.
  intros Hup Hb Hrun Ha. rewrite main_eq, Hup, Hb. cbv zeta. rewrite Hrun.
  destruct Ha as [-> | ->]; eexists; (split; [reflexivity|reflexivity]).
Qed.

End PageProperties.

(** ** Paths inside the workspace *)

Lemma string_app_cons (x : ascii) (a c : string) :
  String x a +:+ c = String x (a +:+ c).
Proof. reflexivity. Qed.

Lemma string_app_assoc (a c d : string) : (a +:+ c) +:+ d = a +:+ (c +:+ d).
Proof.
  induction a as [|x a IH]; [done|]. rewrite !string_app_cons. by rewrite IH.
Qed.

Lemma split_sep_nonempty (s : string) : split_sep s ≠ [].
Proof.
  destruct s as [|c s]; simpl; [done|].
  case_bool_decide; [done|]. by destruct (split_sep s).
Qed.

Lemma split_sep_plain (fn : string) :
  contains_char "/" fn = false → split_sep fn = [fn].
Proof.
  induction fn as [|c fn IH]; simpl; [done|].
  intros H. apply orb_false_elim in H as [Hc Hfn].
  rewrite Hc, (IH Hfn). done.
Qed.

Lemma split_sep_app_sep (a c : string) :
  split_sep (a +:+ "/" +:+ c) = (split_sep a ++ split_sep c)%list.
Proof.
  induction a as [|x a IH].
  - reflexivity.
  - change (split_sep (String x (a +:+ "/" +:+ c))
            = (split_sep (String x a) ++ split_sep c)%list).
    cbn [split_sep]. rewrite IH. case_bool_decide; [done|].
    pose proof (split_sep_nonempty a). by destruct (split_sep a).
Qed.

Lemma ends_with_sep_inv (a : string) :
  ends_with_sep a = true → ∃ a', a = a' +:+ "/".
Proof.
  induction a as [|x a IH]; [done|].
  destruct a as [|y a].
  - simpl. case_bool_decide; [|done]. subst x. by exists "".
  - intros H. destruct (IH H) as [a' Ha']. exists (String x a').
    rewrite string_app_cons. by rewrite <- Ha'.
Qed.

Lemma starts_with_sep_app (a c : string) :
  a ≠ "" → starts_with_sep (a +:+ c) = starts_with_sep a.
Proof. by destruct a. Qed.

Lemma walk_skip_empty (f : FS) (xs ys : list string) (cur : path) :
  ys ≠ [] → walk f cur (xs ++ "" :: ys) = walk f cur (xs ++ ys).
Proof.
  intros Hys. revert cur. induction xs as [|c xs IH]; intros cur.
  - reflexivity.
  - simpl. repeat case_bool_decide; try apply IH; try done.
    destruct xs as [|c' xs]; simpl.
    + destruct ys; [done|]. simpl. destruct (is_dir f _); [apply (IH _)|done].
    + destruct (is_dir f _); [apply (IH _)|done].
Qed.

(** Walking one more plain component below a directory reached by a
    walk, in a file system that has at least the same directories. *)
Lemma walk_extend (f0 f : FS) (comps : list string) (cur r : path) (c : string) :
  (∀ p, is_dir f0 p = true → is_dir f p = true) →
  c ≠ "" → c ≠ "." → c ≠ ".." →
  (String.length c ≤ NAME_MAX)%nat →
  walk f0 cur comps = inr r →
  is_dir f r = true →
  walk f cur (comps ++ [c]) = inr (r ++ [c])%list.
Proof.
  intros Hmono Hc1 Hc2 Hc3 Hlen. revert cur.
  assert (Hlast : ∀ cur, walk f cur [c] = inr (cur ++ [c])%list).
  { intros cur. simpl.
    rewrite bool_decide_eq_false_2 by (intros [|]; done).
    rewrite bool_decide_eq_false_2 by done.
    by rewrite bool_decide_eq_false_2 by lia. }
  induction comps as [|x comps IH]; intros cur Hwalk Hdir.
  - simpl in Hwalk. injection Hwalk as <-. apply Hlast.
  - simpl in Hwalk. cbn [app walk].
    case_bool_decide; [by apply IH|].
    case_bool_decide; [by apply IH|].
    case_bool_decide; [done|].
    destruct comps as [|y comps].
    + injection Hwalk as <-. cbn [app]. rewrite Hdir. apply Hlast.
    + cbn [app].
      destruct (is_dir f0 (cur ++ [x])%list) eqn:Hd.
      * rewrite (Hmono _ Hd). by apply IH.
      * by destruct (is_file f0 _).
Qed.

(** A walk that succeeds looks at the directories only. *)
Lemma walk_same_dirs (f f' : FS) (comps : list string) (cur r : path) :
  dirs f' = dirs f →
  walk f cur comps = inr r → walk f' cur comps = inr r.
Proof.
  intros Hd.
  assert (His : ∀ x, is_dir f' x = is_dir f x)
    by (intros x; unfold is_dir; by rewrite Hd).
  revert cur. induction comps as [|x comps IH]; intros cur; [done|].
  simpl. repeat case_bool_decide; try apply IH; try done.
  destruct comps as [|y comps]; [done|].
  rewrite His. destruct (is_dir f _); [apply IH|].
  by destruct (is_file f _).
Qed.

Lemma resolve_same_dirs (f f' : FS) (p : string) (r : path) :
  dirs f' = dirs f → cwd f' = cwd f →
  resolve f p = inr r → resolve f' p = inr r.
Proof.
  intros Hd Hc. unfold resolve. rewrite Hc.
  repeat case_bool_decide; try done. by apply walk_same_dirs.
Qed.

Lemma mkdir_inv (f0 : FS) (a : string) (r : path) (f : FS) :
  mkdir f0 a = inr (r, f) →
  resolve f0 a = inr r
  ∧ is_dir f0 r = false ∧ is_file f0 r = false
  ∧ f = mkFS ({[ r ]} ∪ dirs f0) (files f0) (cwd f0).
Proof.
  unfold mkdir. destruct (resolve f0 a) as [e|r']; [done|].
  destruct (is_dir f0 r') eqn:Hd; [done|].
  destruct (is_file f0 r') eqn:Hf; [done|]. simpl.
  destruct (is_dir f0 (removelast r')); [|done].
  intros [= <- <-]. done.
Qed.

Lemma mkdtemp_from_mkdir base names f0 name r f ns :
  mkdtemp_from base names f0 = (inr (name, r, f), ns) →
  mkdir f0 name = inr (r, f).
Proof.
  revert ns. induction names as [|n names IH]; intros ns; simpl; [discriminate|].
  destruct (mkdir f0 (os_path_join base ("tmp" +:+ n))) as [e|[r' f']] eqn:Hmk.
  - destruct e; try discriminate. apply IH.
  - intros [= <- <- <- <-]. exact Hmk.
Qed.

Lemma plain_name_inv (fn : string) :
  plain_name fn = true →
  contains_char "/" fn = false ∧ fn ≠ "" ∧ fn ≠ "." ∧ fn ≠ "..".
Proof.
  unfold plain_name. intros H. apply andb_prop in H as [H1 H2].
  apply negb_true_iff in H1. apply bool_decide_eq_true in H2. tauto.
Qed.

Lemma os_path_join_length (a fn : string) :
  (String.length (os_path_join a fn) ≤ String.length a + 1 + String.length fn)%nat.
Proof.
  unfold os_path_join. destruct (starts_with_sep fn); [lia|].
  destruct (bool_decide (a = "") || ends_with_sep a).
  - rewrite append_length. lia.
  - rewrite !append_length. simpl. lia.
Qed.

(** The path of a plain name joined to a freshly made directory is that
    directory's path with the name as one more component. *)
Lemma resolve_join_plain (f0 : FS) (a : string) (r : path) (f : FS) (fn : string) :
  mkdir f0 a = inr (r, f) →
  plain_name fn = true →
  (String.length fn ≤ NAME_MAX)%nat →
  (String.length (os_path_join a fn) < PATH_MAX)%nat →
  resolve f (os_path_join a fn) = inr (r ++ [fn])%list.
Proof.
  intros Hmk Hplain Hname Hpath.
  apply mkdir_inv in Hmk as (Hres & _ & _ & ->).
  apply plain_name_inv in Hplain as (Hslash & Hne & Hdot & Hdots).
  unfold resolve in Hres. case_bool_decide as Ha; [done|].
  case_bool_decide as Hlong; [done|].
  assert (Hmono : ∀ p, is_dir f0 p = true →
            is_dir (mkFS ({[ r ]} ∪ dirs f0) (files f0) (cwd f0)) p = true).
  { intros p Hp. unfold is_dir in *. apply bool_decide_eq_true in Hp.
    apply bool_decide_eq_true. simpl.
    destruct Hp as [->|Hin]; [by left|right; set_solver]. }
  assert (Hr : is_dir (mkFS ({[ r ]} ∪ dirs f0) (files f0) (cwd f0)) r = true).
  { unfold is_dir. apply bool_decide_eq_true. simpl. set_solver. }
  assert (Hfn : starts_with_sep fn = false).
  { destruct fn as [|c fn]; [done|]. simpl in *.
    by apply orb_false_elim in Hslash as [-> _]. }
  unfold resolve.
  rewrite (bool_decide_eq_false_2 (PATH_MAX ≤ _)%nat) by lia.
  revert Hpath. unfold os_path_join. rewrite Hfn.
  rewrite (bool_decide_eq_false_2 _ Ha). simpl orb. intros _.
  destruct (ends_with_sep a) eqn:Hends.
  - destruct (ends_with_sep_inv _ Hends) as [a' ->].
    rewrite bool_decide_eq_false_2 by (by destruct a').
    rewrite starts_with_sep_app by done. cbn [cwd].
    rewrite string_app_assoc, split_sep_app_sep, (split_sep_plain _ Hslash).
    change (a' +:+ "/") with (a' +:+ "/" +:+ "") in Hres.
    rewrite split_sep_app_sep in Hres. cbn [split_sep] in Hres.
    rewrite <- (walk_skip_empty _ _ [fn]) by done.
    change (split_sep a' ++ "" :: [fn])%list
      with (split_sep a' ++ [""] ++ [fn])%list.
    rewrite app_assoc. by apply (walk_extend f0).
  - rewrite bool_decide_eq_false_2 by (by destruct a).
    rewrite starts_with_sep_app by done. cbn [cwd].
    rewrite split_sep_app_sep, (split_sep_plain _ Hslash).
    by apply (walk_extend f0).
Qed.

Lemma persist_plain (f0 : FS) (a : string) (r : path) (f : FS) (fn : string) (v : bytes) :
  mkdir f0 a = inr (r, f) →
  plain_name fn = true →
  (String.length fn ≤ NAME_MAX)%nat →
  (String.length (os_path_join a fn) < PATH_MAX)%nat →
  has_nul (os_path_join a fn) = false →
  (r ++ [fn])%list ∉ dirs f0 →
  fs_write f (os_path_join a fn) v
  = inr (mkFS (dirs f) (<[ (r ++ [fn])%list := v ]> (files f)) (cwd f)).
Proof.
  intros Hmk Hplain Hname Hpath Hnul Hfree. unfold fs_write.
  rewrite Hnul, (resolve_join_plain _ _ _ _ _ Hmk Hplain Hname Hpath).
  apply mkdir_inv in Hmk as (_ & _ & _ & ->).
  assert (Hnd : is_dir (mkFS ({[ r ]} ∪ dirs f0) (files f0) (cwd f0)) (r ++ [fn])%list = false).
  { unfold is_dir. apply bool_decide_eq_false. simpl. intros [Hnil|Hin].
    - by destruct r.
    - apply elem_of_union in Hin as [Hin|Hin]; [|done].
      apply elem_of_singleton in Hin. apply (f_equal length) in Hin.
      rewrite length_app in Hin. simpl in Hin. lia. }
  rewrite Hnd, removelast_last.
  assert (Hr : is_dir (mkFS ({[ r ]} ∪ dirs f0) (files f0) (cwd f0)) r = true).
  { unfold is_dir. apply bool_decide_eq_true. simpl. set_solver. }
  by rewrite Hr.
Qed.

(** ** Ordinary file names *)

Section PlainNames.

Variable which : string → option Program.
Variable decode : bytes → option string.

Local Abbreviation wrapped := (extract_audio_for_download_wrapped which decode).
Local Abbreviation entry := (extract_audio_for_download which decode).

(** X13. With a plain file name no longer than a directory entry may
    be, the source is persisted inside the workspace, as the file of
    that name directly below it, and nothing else of the file system
    changes. *)
Theorem plain_filename_is_persisted_in_workspace v fn w name r f ns :
  mkdtemp_from (tempdir w) (tmp_names w) (fs w) = (inr (name, r, f), ns) →
  plain_name fn = true →
  (String.length fn ≤ NAME_MAX)%nat →
  (String.length (temp_video_path name fn) < PATH_MAX)%nat →
  has_nul (temp_video_path name fn) = false →
  (r ++ [fn])%list ∉ dirs (fs w) →
  fs_write f (temp_video_path name fn) v
  = inr (mkFS (dirs f) (<[ (r ++ [fn])%list := v ]> (files f)) (cwd f)).
Proof.
  intros Hmk Hplain Hname Hpath Hnul Hfree.
  apply mkdtemp_from_mkdir in Hmk. by apply (persist_plain (fs w)).
Qed.

(** X14. With such a file name, once the workspace is created the call
    always returns: no exception leaves the entry point. *)
Theorem plain_filename_never_raises v fn fmt w name r f ns :
  mkdtemp_from (tempdir w) (tmp_names w) (fs w) = (inr (name, r, f), ns) →
  plain_name fn = true →
  (String.length fn ≤ NAME_MAX)%nat →
  (String.length (temp_video_path name fn) < PATH_MAX)%nat →
  has_nul (temp_video_path name fn) = false →
  (r ++ [fn])%list ∉ dirs (fs w) →
  ∃ a, (entry v fn fmt w).1 = Ret a.
Proof.
  intros Hmk Hplain Hname Hpath Hnul Hfree.
  unfold extract_audio_for_download, cache_data.
  destruct (memo w !! (v, fn, fmt)) as [[v0 msgs]|]; [by eauto|].
  rewrite (wrapped_run _ _ _ _ _ _ _ _ _ _ Hmk).
  rewrite (plain_filename_is_persisted_in_workspace v fn w _ _ _ _
             Hmk Hplain Hname Hpath Hnul Hfree).
  destruct (try_block _ _ _ _ _ _) as [[a|e] w2]; simpl; eauto.
Qed.

Lemma keeps_outside_refl r f : keeps_outside r f f.
Proof. by split. Qed.

Lemma keeps_outside_trans r f1 f2 f3 :
  keeps_outside r f1 f2 → keeps_outside r f2 f3 → keeps_outside r f1 f3.
Proof.
  intros [Hc1 H1] [Hc2 H2]. split; [congruence|].
  intros p Hp. destruct (H1 p Hp) as [Hf1 Hd1]. destruct (H2 p Hp) as [Hf2 Hd2].
  split; [congruence|tauto].
Qed.

Lemma reported_fs label e err w : fs (reported decode label e err w).2 = fs w.
Proof. unfold reported. destruct (decode err); reflexivity. Qed.

Lemma same_outside_refl r f : same_outside r f f.
Proof. split; [done|apply keeps_outside_refl]. Qed.

Lemma same_outside_trans r f1 f2 f3 :
  same_outside r f1 f2 → same_outside r f2 f3 → same_outside r f1 f3.
Proof.
  intros [Hd1 H1] [Hd2 H2]. split; [congruence|].
  by apply (keeps_outside_trans r _ f2).
Qed.

Lemma tool_call_same_outside r prog argv f p0 :
  writes_only_output prog →
  resolve f (List.last argv "") = inr p0 →
  r `prefix_of` p0 →
  same_outside r f (fs_after (prog argv f)).
Proof.
  intros Hprog Hres Hin. destruct (Hprog argv f) as (Hc & Hd & Hf).
  split; [done|]. split; [done|]. intros p Hp. split.
  - apply Hf. rewrite Hres. intros [= <-]. done.
  - by rewrite Hd.
Qed.

Lemma extract_audio_ffmpeg_same_outside r v o w p0 :
  toolkit_writes_only_output which →
  resolve (fs w) o = inr p0 → r `prefix_of` p0 →
  same_outside r (fs w) (fs (extract_audio_ffmpeg which decode v o w).2).
Proof.
  intros Htool Hres Hin. rewrite extract_audio_ffmpeg_eq. cbv zeta.
  destruct (which "ffmpeg") as [prog|] eqn:Hw; [|apply same_outside_refl].
  pose proof (tool_call_same_outside r prog (tail (extract_cmd v o)) (fs w) p0
                (Htool _ _ Hw) Hres Hin) as Hcall.
  case_bool_decide; [|rewrite reported_fs]; exact Hcall.
Qed.

Lemma convert_to_mp3_ffmpeg_same_outside r i o w p0 :
  toolkit_writes_only_output which →
  resolve (fs w) o = inr p0 → r `prefix_of` p0 →
  same_outside r (fs w) (fs (convert_to_mp3_ffmpeg which decode i o w).2).
Proof.
  intros Htool Hres Hin. rewrite convert_to_mp3_ffmpeg_eq. cbv zeta.
  destruct (which "ffmpeg") as [prog|] eqn:Hw; [|apply same_outside_refl].
  pose proof (tool_call_same_outside r prog (tail (convert_cmd i o)) (fs w) p0
                (Htool _ _ Hw) Hres Hin) as Hcall.
  case_bool_decide; [|rewrite reported_fs]; exact Hcall.
Qed.

Lemma try_block_same_outside r td fn fmt w pw pf :
  toolkit_writes_only_output which →
  resolve (fs w) (temp_audio_wav td) = inr pw → r `prefix_of` pw →
  resolve (fs w) (final_audio_path td "mp3") = inr pf → r `prefix_of` pf →
  same_outside r (fs w) (fs (try_block which decode td fn fmt w).2).
Proof.
  intros Htool Hw Hpw Hf Hpf. rewrite try_block_eq.
  pose proof (extract_audio_ffmpeg_same_outside r (temp_video_path td fn)
                (temp_audio_wav td) w pw Htool Hw Hpw) as Hex.
  destruct (extract_audio_ffmpeg _ _ _ _ w) as [[[]|e] w1]; simpl in Hex; [|done].
  case_bool_decide as Hfmt.
  - subst fmt.
    assert (Hf1 : resolve (fs w1) (final_audio_path td "mp3") = inr pf).
    { destruct Hex as (Hd & Hc & _). by apply (resolve_same_dirs (fs w)). }
    pose proof (convert_to_mp3_ffmpeg_same_outside r (temp_audio_wav td)
                  (final_audio_path td "mp3") w1 pf Htool Hf1 Hpf) as Hco.
    destruct (convert_to_mp3_ffmpeg _ _ _ _ w1) as [[[]|e] w2]; simpl in Hco.
    + destruct (fs_read _ _); simpl; by apply (same_outside_trans r _ (fs w1)).
    + simpl. by apply (same_outside_trans r _ (fs w1)).
  - destruct (fs_read _ _); simpl; done.
Qed.

(** Removing [r] from a file system that differs from [f0] only at [r]
    and below gives [f0] back, when [f0] has nothing there. *)
Lemma rmtree_restores r f0 f :
  keeps_outside r f0 f →
  (∀ p, r `prefix_of` p → files f0 !! p = None ∧ p ∉ dirs f0) →
  rmtree f r = f0.
Proof.
  intros [Hcwd Hout] Hfree. destruct f0 as [d0 m0 c0]. unfold rmtree.
  simpl in *. f_equal.
  - apply leibniz_equiv. intros p. rewrite elem_of_filter.
    destruct (decide (r `prefix_of` p)) as [Hp|Hp].
    + destruct (Hfree p Hp) as [_ Hnd]. tauto.
    + destruct (Hout p Hp) as [_ Hd]. tauto.
  - apply map_eq. intros p.
    destruct (decide (r `prefix_of` p)) as [Hp|Hp].
    + destruct (Hfree p Hp) as [Hnone _].
      etrans; [|symmetry; exact Hnone].
      apply map_lookup_filter_None. right. intros x _ Hn. by apply Hn.
    + destruct (Hout p Hp) as [Hsame _].
      etrans; [|exact Hsame].
      destruct (files f !! p) as [x|] eqn:Hx.
      * etrans; [|symmetry; exact Hx]. by apply map_lookup_filter_Some.
      * etrans; [|symmetry; exact Hx]. apply map_lookup_filter_None. by left.
  - done.
Qed.

(** X15. With such a file name and a toolkit that changes nothing but
    the file at its output path (its last argument), a run leaves the
    file system exactly as it found it, whether it returns audio bytes
    or [None]: the workspace, the persisted source and every artifact
    are gone, and nothing else was touched. *)
Theorem run_leaves_the_file_system_unchanged v fn fmt w name r f ns :
  mkdtemp_from (tempdir w) (tmp_names w) (fs w) = (inr (name, r, f), ns) →
  plain_name fn = true →
  (String.length fn ≤ NAME_MAX)%nat →
  (String.length name + NAME_MAX + 1 < PATH_MAX)%nat →
  has_nul (temp_video_path name fn) = false →
  (∀ p, r `prefix_of` p → p ≠ r → files (fs w) !! p = None ∧ p ∉ dirs (fs w)) →
  toolkit_writes_only_output which →
  fs (wrapped v fn fmt w).2 = fs w.
Proof.
  intros Hmk Hplain Hname Hws Hnul Hbelow Htool.
  pose proof (mkdtemp_from_mkdir _ _ _ _ _ _ _ Hmk) as Hmkdir.
  assert (Hfree : ∀ p, r `prefix_of` p → files (fs w) !! p = None ∧ p ∉ dirs (fs w)).
  { intros p Hp. destruct (decide (p = r)) as [->|Hne]; [|by apply Hbelow].
    destruct (mkdir_inv _ _ _ _ Hmkdir) as (_ & Hd & Hf & _).
    unfold is_dir in Hd. apply bool_decide_eq_false in Hd.
    unfold is_file in Hf. apply bool_decide_eq_false in Hf.
    split; [|tauto]. destruct (files (fs w) !! r) eqn:Hl; [|done].
    exfalso. apply Hf. eauto. }
  assert (Hsrc : (r ++ [fn])%list ∉ dirs (fs w)).
  { apply Hfree. by apply prefix_app_r. }
  assert (Hlen : ∀ x, (String.length x ≤ NAME_MAX)%nat →
                      (String.length (os_path_join name x) < PATH_MAX)%nat).
  { intros x Hx. pose proof (os_path_join_length name x). lia. }
  rewrite (wrapped_run _ _ _ _ _ _ _ _ _ _ Hmk).
  rewrite (plain_filename_is_persisted_in_workspace v fn w _ _ _ _
             Hmk Hplain Hname (Hlen _ Hname) Hnul Hsrc).
  set (f1 := mkFS (dirs f) (<[ (r ++ [fn])%list := v ]> (files f)) (cwd f)).
  assert (Hwav : resolve f1 (temp_audio_wav name) = inr (r ++ ["temp_audio.wav"])%list).
  { apply (resolve_same_dirs f); [done|done|].
    apply (resolve_join_plain (fs w)); [done|done| |apply Hlen];
      unfold NAME_MAX; simpl; lia. }
  assert (Hmp3 : resolve f1 (final_audio_path name "mp3")
                 = inr (r ++ ["extracted_audio.mp3"])%list).
  { apply (resolve_same_dirs f); [done|done|].
    apply (resolve_join_plain (fs w)); [done|done| |apply Hlen];
      unfold NAME_MAX; simpl; lia. }
  assert (Hf1 : keeps_outside r (fs w) f1).
  { destruct (mkdir_inv _ _ _ _ Hmkdir) as (_ & _ & _ & ->).
    split; [done|]. intros p Hp. simpl. split.
    - apply lookup_insert_ne. intros <-. apply Hp. by apply prefix_app_r.
    - split; [|intros Hin; apply elem_of_union; by right].
      intros Hin. apply elem_of_union in Hin as [Hin|Hin]; [|done].
      apply elem_of_singleton in Hin. subst p. by destruct Hp. }
  pose proof (try_block_same_outside r name fn fmt (set_fs f1 (set_tmp_names ns w))
                _ _ Htool Hwav (prefix_app_r _ _ _ (reflexivity r))
                Hmp3 (prefix_app_r _ _ _ (reflexivity r))) as [_ Htry].
  destruct (try_block _ _ _ _ _ _) as [[a|e] w2]; simpl in *;
    apply rmtree_restores; try done;
    by apply (keeps_outside_trans r _ f1).
Qed.

(** X16. When the toolkit is not on the PATH, a computed call tries the
    extraction once, shows the message [FFmpeg not found...] once, and
    returns [None]; no compression is attempted and the workspace is
    removed. *)
Theorem missing_toolkit_is_reported_once v fn fmt w name r f ns f1 :
  memo w !! (v, fn, fmt) = None →
  mkdtemp_from (tempdir w) (tmp_names w) (fs w) = (inr (name, r, f), ns) →
  fs_write f (temp_video_path name fn) v = inr f1 →
  which "ffmpeg" = None →
  let '(o, w') := entry v fn fmt w in
  o = Ret None
  ∧ run_calls w' =
      (run_calls w ++
       [["ffmpeg"; "-y"; "-i"; os_path_join name fn; "-vn"; "-acodec"; "pcm_s16le";
         os_path_join name "temp_audio.wav"]])%list
  ∧ ui w' =
      (ui w ++
       ["FFmpeg not found. Please ensure it is installed and in your system PATH."])%list
  ∧ fs w' = rmtree f1 r.
Proof.
  intros Hmiss Hmk Hwr Hwhich.
  unfold extract_audio_for_download. rewrite (cache_data_miss _ _ _ _ _ Hmiss).
  rewrite (wrapped_run _ _ _ _ _ _ _ _ _ _ Hmk), Hwr, try_block_eq.
  rewrite extract_audio_ffmpeg_eq, Hwhich. cbv zeta. simpl. done.
Qed.

(** X17. When the toolkit reports success on the extraction but leaves
    no readable WAV at the intermediate path, a run for a format other
    than [mp3] returns [None] and shows no message at all: the failure
    of the final read is silent. *)
Theorem missing_artifact_fails_silently v fn fmt w name r f ns f1 prog e :
  mkdtemp_from (tempdir w) (tmp_names w) (fs w) = (inr (name, r, f), ns) →
  fs_write f (temp_video_path name fn) v = inr f1 →
  fmt ≠ "mp3" →
  which "ffmpeg" = Some prog →
  let c := prog ["-y"; "-i"; temp_video_path name fn; "-vn"; "-acodec"; "pcm_s16le";
                 temp_audio_wav name] f1 in
  returncode c = 0%Z →
  fs_read (fs_after c) (temp_audio_wav name) = inl e →
  (wrapped v fn fmt w).1 = Ret None
  ∧ ui (wrapped v fn fmt w).2 = ui w.
Proof.
  intros Hmk Hwr Hfmt Hwhich c Hrc Hread.
  rewrite (wrapped_run _ _ _ _ _ _ _ _ _ _ Hmk), Hwr, try_block_eq.
  rewrite extract_audio_ffmpeg_eq, Hwhich. cbv zeta.
  change (prog (tail (extract_cmd (temp_video_path name fn) (temp_audio_wav name)))
               (fs (set_fs f1 (set_tmp_names ns w)))) with c.
  rewrite (bool_decide_eq_true_2 _ Hrc).
  rewrite (bool_decide_eq_false_2 _ Hfmt).
  cbn [fs set_fs called set_run_calls]. rewrite Hread. done.
Qed.

End PlainNames.

(** ** The workspace on every exit *)

(** X18. Whatever way a run ends (audio bytes, [None], or an exception
    from persisting the source), the workspace it created is gone when
    the call is over: its path is neither a directory nor a file, and
    no file or directory is left below it. *)
Theorem workspace_is_gone_on_every_exit
  (which : string → option Program) (decode : bytes → option string)
  v fn fmt w name r f ns :
  mkdtemp_from (tempdir w) (tmp_names w) (fs w) = (inr (name, r, f), ns) →
  let w' := (extract_audio_for_download_wrapped which decode v fn fmt w).2 in
  is_dir (fs w') r = false
  ∧ is_file (fs w') r = false
  ∧ ∀ p, r `prefix_of` p → files (fs w') !! p = None ∧ p ∉ dirs (fs w').
Proof.
  intros Hmk w'.
  assert (Hgone : ∀ p, r `prefix_of` p → files (fs w') !! p = None ∧ p ∉ dirs (fs w')).
  { intros p Hp. by apply (workspace_destroyed which decode v fn fmt w name r f ns). }
  destruct (Hgone r) as [Hfile Hdir]; [done|].
  destruct (mkdir_inv _ _ _ _ (mkdtemp_from_mkdir _ _ _ _ _ _ _ Hmk)) as (_ & Hd & _ & _).
  split; [|split; [|exact Hgone]].
  - unfold is_dir in *. apply bool_decide_eq_false. apply bool_decide_eq_false in Hd.
    intros [->|Hin]; [|done]. apply Hd. by left.
  - unfold is_file. apply bool_decide_eq_false. intros [x Hx].
    assert (Hno : @None bytes = Some x)
      by (etrans; [symmetry; exact Hfile|exact Hx]).
    discriminate Hno.
Qed.

(** ** Concrete runs of the further properties *)

Lemma base_name_strips_last_extension_witness :
  base_name "holiday.2024.mp4" = "holiday.2024".
Proof. exact (base_name_strips_last_extension "holiday.2024" "mp4" eq_refl). Defined.

Lemma base_name_fixed_iff_no_dot_witness :
  base_name "README" = "README".
Proof. exact (proj2 (base_name_fixed_iff_no_dot "README") eq_refl). Defined.

Lemma run_shows_at_most_one_error_witness :
  ui (extract_audio_for_download_wrapped installed decode video "clip.mp4" "mp3" w0).2
  = ui w0.
Proof.
  destruct (run_shows_at_most_one_error installed decode video "clip.mp4" "mp3" w0)
    as (msgs & Hui & _ & Hnone).
  assert (Hok : (extract_audio_for_download_wrapped installed decode video
                   "clip.mp4" "mp3" w0).1 ≠ Ret None)
    by (vm_compute; discriminate).
  etrans; [exact Hui|]. rewrite (Hnone Hok). apply app_nil_r.
Defined.

Lemma mp3_result_is_the_final_artifact_witness :
  fs_read (fs (with_block installed decode video "clip.mp4" "mp3" ws_name w_ws).2)
          (os_path_join ws_name "extracted_audio.mp3")
  = inr (b "ID3hello").
Proof.
  assert (H1 : with_block installed decode video "clip.mp4" "mp3" ws_name w_ws
               = (Ret (Some (b "ID3hello")),
                  (with_block installed decode video "clip.mp4" "mp3" ws_name w_ws).2))
    by run.
  exact (proj2 (mp3_result_is_the_final_artifact installed decode video "clip.mp4"
                  ws_name w_ws _ _ H1)).
Defined.

Lemma raising_call_leaves_no_trace_witness :
  run_calls (extract_audio_for_download installed decode video "" "mp3" w0).2
  = run_calls w0.
Proof.
  assert (H1 : extract_audio_for_download installed decode video "" "mp3" w0
               = (Raise (IsADirectoryError "/tmp/tmpk3x9_q0a/"),
                  (extract_audio_for_download installed decode video "" "mp3" w0).2))
    by run.
  exact (proj1 (raising_call_leaves_no_trace installed decode video "" "mp3" w0 _ _ H1)).
Defined.

Lemma other_keys_are_untouched_witness :
  memo (extract_audio_for_download installed decode video "clip.mp4" "mp3" w0).2
    !! (video, "clip.mp4", "wav")
  = memo w0 !! (video, "clip.mp4", "wav").
Proof.
  assert (Hne : (video, "clip.mp4", "wav") ≠ (video, "clip.mp4", "mp3"))
    by (intros [=]).
  exact (other_keys_are_untouched installed decode video "clip.mp4" "mp3" w0
           (video, "clip.mp4", "wav") Hne).
Defined.

Lemma hit_repeats_the_original_run_witness :
  let first := extract_audio_for_download missing decode video "clip.mp4" "mp3" w0 in
  (extract_audio_for_download installed decode video "clip.mp4" "mp3" first.2).1
  = Ret None.
Proof.
  cbv zeta.
  assert (H1 : memo w0 !! (video, "clip.mp4", "mp3") = None) by run.
  assert (H2 : extract_audio_for_download missing decode video "clip.mp4" "mp3" w0
               = (Ret None,
                  (extract_audio_for_download missing decode video "clip.mp4" "mp3" w0).2))
    by run.
  destruct (hit_repeats_the_original_run missing decode video "clip.mp4" "mp3" w0 _ _ H1 H2)
    as (msgs & _ & Hhit).
  by rewrite (Hhit installed decode _ eq_refl).
Defined.

Lemma page_is_idle_without_upload_and_click_witness :
  (main installed decode (mkInputs None ChooseMp3 true) w0).2 = w0.
Proof.
  destruct (page_is_idle_without_upload_and_click installed decode
              (mkInputs None ChooseMp3 true) w0 (or_introl eq_refl))
    as (els & Hmain & _).
  by rewrite Hmain.
Defined.

Lemma download_carries_the_pipeline_result_witness :
  ∃ els,
    (main installed decode (clicked "holiday.2024.mp4" video ChooseWav) w0).1
    = Ret (els ++
           [DownloadButton "Download holiday.2024_extracted.wav" (b "RIFFhello")
              "holiday.2024_extracted.wav" "audio/wav"])%list.
Proof.
  assert (H1 : extract_audio_for_download installed decode video "holiday.2024.mp4" "wav" w0
               = (Ret (Some (b "RIFFhello")),
                  (extract_audio_for_download installed decode video
                     "holiday.2024.mp4" "wav" w0).2))
    by run.
  assert (H2 : b "RIFFhello" ≠ []) by discriminate.
  destruct (download_carries_the_pipeline_result installed decode
              (clicked "holiday.2024.mp4" video ChooseWav)
              (mkUploadedFile "holiday.2024.mp4" video) w0 _ _ eq_refl eq_refl H1 H2)
    as (els & Hmain & _).
  exists els. rewrite Hmain. reflexivity.
Defined.

Lemma empty_or_missing_audio_is_reported_as_failure_witness :
  ui (main installed decode (clicked "clip.mp4" garbage ChooseMp3) w0).2
  = ["FFmpeg extraction failed! Output: Invalid data found when processing input";
     "Extraction failed. Check the error logs above."].
Proof.
  assert (H1 : extract_audio_for_download installed decode garbage "clip.mp4" "mp3" w0
               = (Ret None,
                  (extract_audio_for_download installed decode garbage
                     "clip.mp4" "mp3" w0).2))
    by run.
  destruct (empty_or_missing_audio_is_reported_as_failure installed decode
              (clicked "clip.mp4" garbage ChooseMp3)
              (mkUploadedFile "clip.mp4" garbage) w0 _ _ eq_refl eq_refl H1
              (or_introl eq_refl))
    as (els & Hmain & _).
  rewrite Hmain. vm_compute. reflexivity.
Defined.

Lemma sample_workspace :
  mkdtemp_from (tempdir w0) (tmp_names w0) (fs w0)
  = (inr (ws_name, ws_path, fs1), ["p71mzz4c"; "0wd8s_e2"]).
Proof. run. Qed.

Lemma sample_nothing_below (p : path) :
  ws_path `prefix_of` p → p ≠ ws_path →
  files (fs w0) !! p = None ∧ p ∉ dirs (fs w0).
Proof.
  intros [k ->] _. split; [apply lookup_empty|].
  cbn [fs w0 dirs fs0]. intros Hin.
  apply elem_of_union in Hin as [Hin|Hin];
    apply elem_of_singleton in Hin; discriminate Hin.
Qed.

Lemma fs_write_inv (f : FS) (p : string) (d : bytes) (f' : FS) :
  fs_write f p d = inr f' →
  ∃ r, resolve f p = inr r ∧ f' = mkFS (dirs f) (<[ r := d ]> (files f)) (cwd f).
Proof.
  unfold fs_write. destruct (has_nul p); [done|].
  destruct (resolve f p) as [e|r]; [done|].
  destruct (is_dir f r); [done|]. destruct (is_dir f (removelast r)); [|done].
  intros [= <-]. eauto.
Qed.

Lemma sample_transcoder_writes_only_output : toolkit_writes_only_output transcoding.
Proof.
  intros exe prog [= <-] argv f. unfold transcoder.
  destruct (fs_read f (nth 2 argv "")) as [e|[|c track]]; [done|done|].
  case_bool_decide; [|done].
  destruct (fs_write f (List.last argv "") _) as [e|f'] eqn:Hwr; [done|].
  apply fs_write_inv in Hwr as (r & Hres & ->). cbn [fs_after cwd dirs files].
  split; [done|]. split; [done|]. intros p Hp.
  apply lookup_insert_ne. intros <-. by apply Hp.
Qed.

Lemma sample_short_names :
  (String.length "clip.mp4" ≤ NAME_MAX)%nat
  ∧ (String.length (temp_video_path ws_name "clip.mp4") < PATH_MAX)%nat
  ∧ (String.length ws_name + NAME_MAX + 1 < PATH_MAX)%nat.
Proof. vm_compute. repeat split; lia. Qed.

Lemma plain_filename_is_persisted_in_workspace_witness :
  fs_write fs1 (temp_video_path ws_name "clip.mp4") video
  = inr (mkFS (dirs fs1) (<[ (ws_path ++ ["clip.mp4"])%list := video ]> (files fs1))
              (cwd fs1)).
Proof.
  assert (Hfree : (ws_path ++ ["clip.mp4"])%list ∉ dirs (fs w0)).
  { apply (sample_nothing_below (ws_path ++ ["clip.mp4"])%list).
    - by apply prefix_app_r.
    - discriminate. }
  destruct sample_short_names as (Hname & Hpath & _).
  exact (plain_filename_is_persisted_in_workspace video "clip.mp4" w0 _ _ _ _
           sample_workspace eq_refl Hname Hpath eq_refl Hfree).
Defined.

Lemma plain_filename_never_raises_witness :
  ∃ a, (extract_audio_for_download installed decode video "clip.mp4" "mp3" w0).1 = Ret a.
Proof.
  assert (Hfree : (ws_path ++ ["clip.mp4"])%list ∉ dirs (fs w0)).
  { apply (sample_nothing_below (ws_path ++ ["clip.mp4"])%list).
    - by apply prefix_app_r.
    - discriminate. }
  destruct sample_short_names as (Hname & Hpath & _).
  exact (plain_filename_never_raises installed decode video "clip.mp4" "mp3" w0 _ _ _ _
           sample_workspace eq_refl Hname Hpath eq_refl Hfree).
Defined.

Lemma run_leaves_the_file_system_unchanged_witness :
  (extract_audio_for_download_wrapped transcoding decode video "clip.mp4" "wav" w0).1
    = Ret (Some (b "RIFFhello"))
  ∧ fs (extract_audio_for_download_wrapped transcoding decode video "clip.mp4" "wav" w0).2
    = fs w0.
Proof.
  split; [run|].
  destruct sample_short_names as (Hname & _ & Hws).
  exact (run_leaves_the_file_system_unchanged transcoding decode video "clip.mp4" "wav" w0
           _ _ _ _ sample_workspace eq_refl Hname Hws eq_refl sample_nothing_below
           sample_transcoder_writes_only_output).
Defined.

Lemma missing_toolkit_is_reported_once_witness :
  (extract_audio_for_download missing decode video "clip.mp4" "mp3" w0).1 = Ret None
  ∧ ui (extract_audio_for_download missing decode video "clip.mp4" "mp3" w0).2
    = ["FFmpeg not found. Please ensure it is installed and in your system PATH."].
Proof.
  assert (H1 : memo w0 !! (video, "clip.mp4", "mp3") = None) by run.
  assert (H2 : fs_write fs1 (temp_video_path ws_name "clip.mp4") video
               = inr (fs_with "clip.mp4" video)) by run.
  pose proof (missing_toolkit_is_reported_once missing decode video "clip.mp4" "mp3" w0
                _ _ _ _ _ H1 sample_workspace H2 eq_refl) as H.
  vm_compute in H. destruct H as (Ho & _ & Hui & _).
  split; vm_compute; [exact Ho|exact Hui].
Defined.

Lemma missing_artifact_fails_silently_witness :
  (extract_audio_for_download_wrapped idle decode video "clip.mp4" "wav" w0).1 = Ret None
  ∧ ui (extract_audio_for_download_wrapped idle decode video "clip.mp4" "wav" w0).2
    = ui w0.
Proof.
  assert (H2 : fs_write fs1 (temp_video_path ws_name "clip.mp4") video
               = inr (fs_with "clip.mp4" video)) by run.
  assert (H3 : "wav" ≠ "mp3") by discriminate.
  assert (H4 : fs_read (fs_with "clip.mp4" video) (temp_audio_wav ws_name)
               = inl (FileNotFoundError "/tmp/tmpk3x9_q0a/temp_audio.wav")) by run.
  exact (missing_artifact_fails_silently idle decode video "clip.mp4" "wav" w0
           _ _ _ _ _ (λ _ f, mkCompleted 0 [] [] f) _
           sample_workspace H2 H3 eq_refl eq_refl H4).
Defined.

Lemma workspace_is_gone_on_every_exit_witness :
  is_dir (fs (extract_audio_for_download_wrapped installed decode video "" "mp3" w0).2)
         ws_path = false.
Proof.
  exact (proj1 (workspace_is_gone_on_every_exit installed decode video "" "mp3" w0
                  _ _ _ _ sample_workspace)).
Defined.
